(** * The AMI wrapper of amipy (src/amipy/amiwrapper.py)

    A shallow embedding of [AmiWrapper], the Python class that marshals
    host values into a dynamically loaded simulation kernel, and of
    [check_result], the status check every kernel call goes through.

    Python methods become functions in a state-and-exception monad.  The
    state holds what the methods can observe or change: the adapter object
    ([self]), the process-wide current directory, the kernel's own state,
    and a ghost trace of the directory switches and kernel calls made so
    far.  The state survives a raised exception, as it does in Python.

    What lies outside the module is a parameter: the file system (where
    [os.chdir] leads, or that it fails), the library loader, and the
    kernel (a function from a call, the current directory and the kernel's
    state to a status, the values stored through the output pointers and
    a new state).  Assumed throughout: [os.getcwd] succeeds, the library
    exports every function the wrapper calls, the kernel does not change
    the current directory, and the strings exchanged with the kernel are
    ASCII, so that [encode] and [decode] are the identity. *)

From Stdlib Require Import ZArith List String Ascii Bool Lia DecimalString.
From Stdlib Require PrimFloat.
Import ListNotations.

Open Scope string_scope.
Open Scope Z_scope.

(** ** Python values used by the wrapper *)

(** The exceptions the module can raise.  [Exception] is the plain
    [Exception(msg)] of [check_result]; [OSError] stands for the failures
    of [os.chdir] and [cdll.LoadLibrary]; [ValueError] for the ones of
    [np.zeros], [create_string_buffer], [c_int.in_dll] and
    [values.contents], with the message the library gives. *)
Inductive exn : Type :=
| Exception (msg : string)
| NotImplementedError
| AssertionError
| OSError (filename : string)
| ValueError (msg : string).

Inductive outcome (A : Type) : Type :=
| Return (a : A)
| Raise (e : exn).

Arguments Return {A} a.
Arguments Raise {A} e.

(** A Python [float], which is what [c_double] holds. *)
Definition double : Type := PrimFloat.float.

(** [str(n)] for a Python int. *)
Definition str_int (n : Z) : string := NilZero.string_of_int (Z.to_int n).

(** [str(id)], the text of the builtin function [id]. *)
Definition str_builtin_id : string := "<built-in function id>".

(** [s.lower()], on the ASCII letters. *)
Definition lower_ascii (c : ascii) : ascii :=
  let n := N_of_ascii c in
  if ((65 <=? n) && (n <=? 90))%N then ascii_of_N (n + 32) else c.

Fixpoint lower (s : string) : string :=
  match s with
  | EmptyString => EmptyString
  | String c s' => String (lower_ascii c) (lower s')
  end.

(** [s.startswith(p)]. *)
Definition startswith (s p : string) : bool := prefix p s.

(** [sub in s]. *)
Fixpoint contains (sub s : string) : bool :=
  prefix sub s ||
  match s with
  | EmptyString => false
  | String _ s' => contains sub s'
  end.

(** ctypes' [c_int(v)]: the value is kept modulo 2^32, as a signed
    32-bit integer; no overflow check is made. *)
Definition c_int (v : Z) : Z := (v + 2 ^ 31) mod 2 ^ 32 - 2 ^ 31.

(** ** numpy *)

(** [np.trim_zeros(filt)] with its default [trim='fb'], as numpy defines
    it for a one-dimensional array: count the zeros at the front, count
    the zeros at the back, return the slice between them. *)
Fixpoint leading_zeros (filt : list Z) : nat :=
  match filt with
  | [] => 0%nat
  | i :: rest => if i =? 0 then S (leading_zeros rest) else 0%nat
  end.

Definition slice {A : Type} (first last : nat) (l : list A) : list A :=
  firstn (last - first) (skipn first l).

Definition trim_zeros (filt : list Z) : list Z :=
  let first := leading_zeros filt in
  let last := (List.length filt - leading_zeros (rev filt))%nat in
  slice first last filt.

Definition all_zero (l : list Z) : Prop := Forall (fun n => n = 0) l.

(** [np.zeros(n, dtype=np.int32)]; a negative length is a [ValueError]. *)
Definition np_zeros (n : Z) : outcome (list Z) :=
  if n <? 0 then Raise (ValueError "negative dimensions are not allowed")
  else Return (repeat 0 (Z.to_nat n)).

(** What an array of fixed length holds after foreign code has written
    the values [written] through a pointer to its first element. *)
Definition fill {A : Type} (array written : list A) : list A :=
  (firstn (List.length array) written ++ skipn (List.length written) array)%list.

Inductive dtype : Type := float64 | int32.

(** The class built by [np.ctypeslib.ndpointer(dtype, ndim, shape, flags)]. *)
Record ndpointer : Type := mk_ndpointer {
  nd_dtype : dtype;
  nd_ndim : nat;
  nd_shape : list Z;
  nd_flags : string }.

(** A numpy array that is a view of foreign memory: element type, shape
    and the address of its first element.  The array is not a copy; it
    is identified by its address in kernel memory.  Every view made here
    comes from [np.frombuffer] and has the row-major strides of its
    shape, see [array_strides]. *)
Record ndarray : Type := mk_ndarray {
  array_dtype : dtype;
  array_shape : list Z;
  array_data : Z }.

Definition itemsize (t : dtype) : Z :=
  match t with float64 => 8 | int32 => 4 end.

Definition product (shape : list Z) : Z := fold_right Z.mul 1 shape.

(** The strides, in bytes, of a row-major (C-ordered) array. *)
Fixpoint c_strides (item : Z) (shape : list Z) : list Z :=
  match shape with
  | [] => []
  | _ :: rest => item * product rest :: c_strides item rest
  end.

Definition array_strides (a : ndarray) : list Z :=
  c_strides (itemsize (array_dtype a)) (array_shape a).

(** numpy's test for the [F_CONTIGUOUS] flag: going through the
    dimensions from the first, every dimension other than 1 must have
    the stride of a column-major layout. *)
Fixpoint f_contiguous_from (sd : Z) (shape strides : list Z) : bool :=
  match shape, strides with
  | n :: shape', st :: strides' =>
      if n =? 0 then true
      else if n =? 1 then f_contiguous_from sd shape' strides'
      else (st =? sd) && f_contiguous_from (sd * n) shape' strides'
  | _, _ => true
  end.

Definition f_contiguous (a : ndarray) : bool :=
  f_contiguous_from (itemsize (array_dtype a)) (array_shape a) (array_strides a).

(** [values.contents] for an instance [values] of an [ndpointer] class
    that holds [address].  numpy builds the sub-array dtype
    [(dtype, shape)], which refuses a negative dimension and a size in
    bytes that does not fit a C int; ctypes then refuses to dereference
    a NULL pointer; [np.frombuffer] refuses a dtype of size zero.  The
    [flags] of the class play no part: they are checked on arguments
    passed to foreign functions only. *)
Definition contents_error (t : ndpointer) (address : Z) : option string :=
  let nbytes := itemsize (nd_dtype t) * product (nd_shape t) in
  if existsb (fun n => n <? 0) (nd_shape t) then
    Some "invalid shape in fixed-type tuple: dimension smaller then zero."
  else if 2 ^ 31 <=? nbytes then
    Some "invalid shape in fixed-type tuple: dtype size in bytes must fit into a C int."
  else if address =? 0 then Some "NULL pointer access"
  else if nbytes =? 0 then Some "itemsize cannot be zero in type"
  else None.

Definition contents (t : ndpointer) (address : Z) : outcome ndarray :=
  match contents_error t address with
  | Some msg => Raise (ValueError msg)
  | None => Return (mk_ndarray (nd_dtype t) (nd_shape t) address)
  end.

(** The conditions under which [values.contents] gives a view. *)
Definition viewable (t : dtype) (shape : list Z) (address : Z) : Prop :=
  Forall (fun n => 0 < n) shape /\
  itemsize t * product shape < 2 ^ 31 /\
  address <> 0.

(** The shape tuple of [get_value_ptr]: the zeroed array of [rank]
    entries after the kernel has written [written] into it, trimmed. *)
Definition shape_tuple (rank : Z) (written : list Z) : list Z :=
  trim_zeros (fill (repeat 0 (Z.to_nat rank)) written).

(** The dimensions of a shape that are not 1. *)
Definition non_unit (shape : list Z) : list Z :=
  filter (fun n => negb (n =? 1)) shape.

(** ** ctypes string buffers *)

(** [create_string_buffer(n)] gives [n] zero bytes; [c_char * n] refuses a
    negative [n]. *)
Definition create_string_buffer (n : Z) : outcome nat :=
  if n <? 0 then Raise (ValueError ("Array length must be >= 0, not " ++ str_int n))
  else Return (Z.to_nat n).

Fixpoint until_nul (s : string) : string :=
  match s with
  | EmptyString => EmptyString
  | String c s' => if Ascii.eqb c Ascii.zero then EmptyString else String c (until_nul s')
  end.

(** [buf.value.decode()] after the kernel has written [written] into a
    buffer of [size] bytes: the bytes before the first NUL. *)
Definition buffer_value (size : nat) (written : string) : string :=
  until_nul (substring 0 size written).

(** ** The kernel *)

(** The functions of the shared library that the wrapper calls, with the
    arguments it passes by value or by reference-to-input. *)
Inductive KCall : Type :=
| k_initialize (config_file : string)
| k_update
| k_finalize
| k_get_current_time
| k_get_start_time
| k_get_end_time
| k_get_time_step
| k_get_var_type (name : string)
| k_get_var_shape (name : string)
| k_get_var_rank (name : string)
| k_get_var_itemsize (name : string)
| k_get_var_nbytes (name : string)
| k_get_value_ptr_double (name : string)
| k_get_value_ptr_int (name : string)
| k_get_grid_rank (grid : Z)
| k_get_grid_type (grid : Z)
| k_get_grid_shape (grid : Z)
| k_get_grid_x (grid : Z)
| k_get_grid_y (grid : Z)
| k_get_grid_z (grid : Z)
| k_prepare_time_step (dt : double)
| k_do_time_step
| k_finalize_time_step
| k_get_subcomponent_count
| k_prepare_solve (cid : Z)
| k_solve (cid : Z)
| k_finalize_solve (cid : Z).


(** What a kernel function hands back: its integer status and whatever it
    stored through the output pointers it was given (the slots a function
    does not use are ignored by the wrapper). *)
Record KReply : Type := mk_reply {
  status : Z;
  out_int : Z;
  out_double : double;
  out_string : string;
  out_ints : list Z;
  out_doubles : list double;
  out_pointer : Z }.

(** Ghost trace: each [os.chdir(path)] attempted and each kernel call
    made, the latter with the directory that was current during the call
    and the status the kernel returned. *)
Inductive event : Type :=
| EvChdir (path : string)
| EvKernel (call : KCall) (at_cwd : string) (st : Z).

(** An event that is a kernel call made in directory [d]. *)
Definition in_directory (d : string) (e : event) : Prop :=
  exists c z, e = EvKernel c d z.

Definition BMI_SUCCESS : Z := 0.
Definition BMI_FAILURE : Z := 1.

Section Wrapper.

(** The kernel's internal state, opaque to the wrapper. *)
Context {K : Type}.

(** The file system as [os.chdir] sees it: [chdir_target cwd path] is the
    directory that becomes current when [os.chdir(path)] is called in
    [cwd], or [None] when the call fails. *)
Variable chdir_target : string -> string -> option string.

(** A loaded library: the name the loader knows it by, its functions,
    which may read the current directory and change the kernel's state,
    and its exported integer symbols.  The kernel is assumed not to
    change the current directory itself. *)
Record Dll : Type := mk_dll {
  dll_name : string;
  dll_call : KCall -> string -> K -> KReply * K;
  dll_symbol : string -> option Z }.

(** The loader's complaint about a symbol the library does not export,
    which [c_int.in_dll] raises as a [ValueError]. *)
Definition undefined_symbol (d : Dll) (name : string) : exn :=
  ValueError (dll_name d ++ ": undefined symbol: " ++ name).

(** [cdll.LoadLibrary]. *)
Variable LoadLibrary : string -> option Dll.

(** The attributes of an [AmiWrapper] instance. *)
Record AmiWrapper : Type := mk_wrapper {
  path : string;
  dll : Dll;
  MAXSTRLEN : Z;
  working_directory : string;
  previous_directory : string }.

Record State : Type := mk_state {
  self : AmiWrapper;
  cwd : string;
  kernel : K;
  trace : list event }.

(** ** The monad *)

Definition M (A : Type) : Type := State -> outcome A * State.

Definition ret {A : Type} (a : A) : M A := fun s => (Return a, s).

Definition raise {A : Type} (e : exn) : M A := fun s => (Raise e, s).

Definition bind {A B : Type} (m : M A) (f : A -> M B) : M B :=
  fun s =>
    match m s with
    | (Return a, s') => f a s'
    | (Raise e, s') => (Raise e, s')
    end.

Definition lift {A : Type} (o : outcome A) : M A := fun s => (o, s).

Notation "x <- m ;; k" := (bind m (fun x => k))
  (at level 61, m at next level, right associativity).
Notation "m ;; k" := (bind m (fun _ => k))
  (at level 61, right associativity).

Definition get_self : M AmiWrapper := fun s => (Return (self s), s).

Definition set_previous_directory (d : string) : M unit := fun s =>
  (Return tt,
   mk_state
     (mk_wrapper (path (self s)) (dll (self s)) (MAXSTRLEN (self s))
                 (working_directory (self s)) d)
     (cwd s) (kernel s) (trace s)).

(** [os.getcwd()]. *)
Definition os_getcwd : M string := fun s => (Return (cwd s), s).

(** [os.chdir(path)]. *)
Definition os_chdir (p : string) : M unit := fun s =>
  let t := (trace s ++ [EvChdir p])%list in
  match chdir_target (cwd s) p with
  | Some d => (Return tt, mk_state (self s) d (kernel s) t)
  | None => (Raise (OSError p), mk_state (self s) (cwd s) (kernel s) t)
  end.

(** [self.dll.f(args)]: the call runs in the current directory. *)
Definition dll_invoke (c : KCall) : M KReply := fun s =>
  let (r, k') := dll_call (dll (self s)) c (cwd s) (kernel s) in
  (Return r,
   mk_state (self s) (cwd s) k' (trace s ++ [EvKernel c (cwd s) (status r)])%list).

(** ** src/amipy/amiwrapper.py *)

Definition check_result (result : Z) (function_name detail : string) : M unit :=
  if negb (result =? BMI_SUCCESS) then
    let msg := "MODFLOW 6 BMI, exception in: " ++ function_name ++
               " (" ++ detail ++ ")" in
    raise (Exception msg)
  else ret tt.

Definition get_constant_int (d : Dll) (name : string) : outcome Z :=
  match dll_symbol d name with
  | Some v => Return v
  | None => Raise (undefined_symbol d name)
  end.

Definition AmiWrapper__init__ (path : string) : outcome AmiWrapper :=
  match LoadLibrary path with
  | None => Raise (OSError path)
  | Some d =>
      match get_constant_int d "MAXSTRLEN" with
      | Raise e => Raise e
      | Return n => Return (mk_wrapper path d n "." ".")
      end
  end.

Definition initialize (config_file : string) : M unit :=
  d <- os_getcwd ;; set_previous_directory d ;;
  w <- get_self ;; os_chdir (working_directory w) ;;
  r <- dll_invoke (k_initialize config_file) ;;
  check_result (status r) "initialize" "" ;;
  w <- get_self ;; os_chdir (previous_directory w).

Definition update : M unit :=
  d <- os_getcwd ;; set_previous_directory d ;;
  w <- get_self ;; os_chdir (working_directory w) ;;
  r <- dll_invoke k_update ;;
  check_result (status r) "update" "" ;;
  w <- get_self ;; os_chdir (previous_directory w).

Definition update_until (time : double) : M unit :=
  d <- os_getcwd ;; set_previous_directory d ;;
  w <- get_self ;; os_chdir (working_directory w) ;;
  check_result BMI_FAILURE "update_until" "" ;;
  w <- get_self ;; os_chdir (previous_directory w).

Definition finalize : M unit :=
  d <- os_getcwd ;; set_previous_directory d ;;
  w <- get_self ;; os_chdir (working_directory w) ;;
  r <- dll_invoke k_finalize ;;
  check_result (status r) "finalize" "" ;;
  w <- get_self ;; os_chdir (previous_directory w).

Definition get_current_time : M double :=
  r <- dll_invoke k_get_current_time ;;
  check_result (status r) "get_current_time" "" ;;
  ret (out_double r).

Definition get_start_time : M double :=
  r <- dll_invoke k_get_start_time ;;
  check_result (status r) "get_start_time" "" ;;
  ret (out_double r).

Definition get_end_time : M double :=
  r <- dll_invoke k_get_end_time ;;
  check_result (status r) "get_end_time" "" ;;
  ret (out_double r).

Definition get_time_step : M double :=
  r <- dll_invoke k_get_time_step ;;
  check_result (status r) "get_time_step" "" ;;
  ret (out_double r).

Definition get_component_name : M string := raise NotImplementedError.

Definition get_input_item_count : M Z := raise NotImplementedError.

Definition get_output_item_count : M Z := raise NotImplementedError.

Definition get_input_var_names : M (list string) := raise NotImplementedError.

Definition get_output_var_names : M (list string) := raise NotImplementedError.

Definition get_var_grid (name : string) : M Z := raise NotImplementedError.

Definition get_var_type (name : string) : M string :=
  w <- get_self ;;
  var_type <- lift (create_string_buffer (MAXSTRLEN w)) ;;
  r <- dll_invoke (k_get_var_type name) ;;
  check_result (status r) "get_var_type" ("for variable " ++ name) ;;
  ret (buffer_value var_type (out_string r)).

Definition get_var_rank (name : string) : M Z :=
  r <- dll_invoke (k_get_var_rank name) ;;
  check_result (status r) "get_var_rank" ("for variable " ++ name) ;;
  ret (out_int r).

Definition get_var_shape (name : string) : M (list Z) :=
  rank <- get_var_rank name ;;
  array <- lift (np_zeros rank) ;;
  r <- dll_invoke (k_get_var_shape name) ;;
  check_result (status r) "get_var_shape" ("for variable " ++ name) ;;
  ret (fill array (out_ints r)).

Definition get_var_units (name : string) : M string := raise NotImplementedError.

Definition get_var_itemsize (name : string) : M Z :=
  r <- dll_invoke (k_get_var_itemsize name) ;;
  check_result (status r) "get_var_itemsize" ("for variable " ++ name) ;;
  ret (out_int r).

Definition get_var_nbytes (name : string) : M Z :=
  r <- dll_invoke (k_get_var_nbytes name) ;;
  check_result (status r) "get_var_nbytes" ("for variable " ++ name) ;;
  ret (out_int r).

Definition get_var_location (name : string) : M string := raise NotImplementedError.

Definition get_time_units : M string := raise NotImplementedError.

Definition get_value (name : string) (dest : list double) : M (list double) :=
  raise NotImplementedError.

(** A Python function that ends without [return] gives [None]: the
    result of the two value-pointer methods is an optional array. *)
Definition get_value_ptr_scalar (name : string) : M (option ndarray) :=
  vartype <- get_var_type name ;;
  if startswith (lower vartype) "double" then
    raise AssertionError
  else if startswith (lower vartype) "int" then
    let arraytype := mk_ndpointer int32 1 [1] "F" in
    r <- dll_invoke (k_get_value_ptr_int name) ;;
    check_result (status r) "get_value_ptr" ("for variable " ++ name) ;;
    view <- lift (contents arraytype (out_pointer r)) ;;
    ret (Some view)
  else ret None.

Definition get_value_ptr (name : string) : M (option ndarray) :=
  rank <- get_var_rank name ;;
  if rank =? 0 then get_value_ptr_scalar name
  else
    vartype <- get_var_type name ;;
    shape_array <- get_var_shape name ;;
    let shape_tuple := trim_zeros shape_array in
    let ndim := List.length shape_tuple in
    if startswith (lower vartype) "double" then
      let arraytype := mk_ndpointer float64 ndim shape_tuple "F" in
      r <- dll_invoke (k_get_value_ptr_double name) ;;
      check_result (status r) "get_value_ptr" ("for variable " ++ name) ;;
      view <- lift (contents arraytype (out_pointer r)) ;;
      ret (Some view)
    else if startswith (lower vartype) "int" then
      let arraytype := mk_ndpointer int32 ndim shape_tuple "F" in
      r <- dll_invoke (k_get_value_ptr_int name) ;;
      check_result (status r) "get_value_ptr" ("for variable " ++ name) ;;
      view <- lift (contents arraytype (out_pointer r)) ;;
      ret (Some view)
    else ret None.

Definition get_value_at_indices (name : string) (dest : list double) (inds : list Z)
  : M (list double) := raise NotImplementedError.

Definition set_value (name : string) (values : list double) : M unit :=
  raise NotImplementedError.

Definition set_value_at_indices (name : string) (inds : list Z) (src : list double)
  : M unit := raise NotImplementedError.

Definition get_grid_rank (grid : Z) : M Z :=
  let c_grid := c_int grid in
  r <- dll_invoke (k_get_grid_rank c_grid) ;;
  check_result (status r) "get_grid_rank" ("for id " ++ str_int grid) ;;
  ret (out_int r).

Definition get_grid_size (grid : Z) : M Z := raise NotImplementedError.

Definition get_grid_type (grid : Z) : M string :=
  w <- get_self ;;
  grid_type <- lift (create_string_buffer (MAXSTRLEN w)) ;;
  let c_grid := c_int grid in
  r <- dll_invoke (k_get_grid_type c_grid) ;;
  check_result (status r) "get_grid_type" ("for id " ++ str_int grid) ;;
  ret (buffer_value grid_type (out_string r)).

(** In the next four methods the detail is built from [str(id)]: [id] is
    not a name of the method, so it is Python's builtin function. *)
Definition get_grid_shape (grid : Z) (shape : list Z) : M (list Z) :=
  let c_grid := c_int grid in
  r <- dll_invoke (k_get_grid_shape c_grid) ;;
  check_result (status r) "get_grid_shape" ("for id " ++ str_builtin_id) ;;
  ret (fill shape (out_ints r)).

Definition get_grid_spacing (grid : Z) (spacing : list double) : M (list double) :=
  raise NotImplementedError.

Definition get_grid_origin (grid : Z) (origin : list double) : M (list double) :=
  raise NotImplementedError.

Definition get_grid_x (grid : Z) (x : list double) : M (list double) :=
  let c_grid := c_int grid in
  r <- dll_invoke (k_get_grid_x c_grid) ;;
  check_result (status r) "get_grid_x" ("for id " ++ str_builtin_id) ;;
  ret (fill x (out_doubles r)).

Definition get_grid_y (grid : Z) (y : list double) : M (list double) :=
  let c_grid := c_int grid in
  r <- dll_invoke (k_get_grid_y c_grid) ;;
  check_result (status r) "get_grid_y" ("for id " ++ str_builtin_id) ;;
  ret (fill y (out_doubles r)).

Definition get_grid_z (grid : Z) (z : list double) : M (list double) :=
  let c_grid := c_int grid in
  r <- dll_invoke (k_get_grid_z c_grid) ;;
  check_result (status r) "get_grid_z" ("for id " ++ str_builtin_id) ;;
  ret (fill z (out_doubles r)).

Definition get_grid_node_count (grid : Z) : M Z := raise NotImplementedError.

Definition get_grid_edge_count (grid : Z) : M Z := raise NotImplementedError.

Definition get_grid_face_count (grid : Z) : M Z := raise NotImplementedError.

Definition get_grid_edge_nodes (grid : Z) (edge_nodes : list Z) : M (list Z) :=
  raise NotImplementedError.

Definition get_grid_face_edges (grid : Z) (face_edges : list Z) : M (list Z) :=
  raise NotImplementedError.

Definition get_grid_face_nodes (grid : Z) (face_nodes : list Z) : M (list Z) :=
  raise NotImplementedError.

Definition get_grid_nodes_per_face (grid : Z) (nodes_per_face : list Z) : M (list Z) :=
  raise NotImplementedError.

Definition prepare_time_step (dt : double) : M unit :=
  d <- os_getcwd ;; set_previous_directory d ;;
  w <- get_self ;; os_chdir (working_directory w) ;;
  r <- dll_invoke (k_prepare_time_step dt) ;;
  check_result (status r) "prepare_time_step" "" ;;
  w <- get_self ;; os_chdir (previous_directory w).

Definition do_time_step : M unit :=
  d <- os_getcwd ;; set_previous_directory d ;;
  w <- get_self ;; os_chdir (working_directory w) ;;
  r <- dll_invoke k_do_time_step ;;
  check_result (status r) "do_time_step" "" ;;
  w <- get_self ;; os_chdir (previous_directory w).

Definition finalize_time_step : M unit :=
  d <- os_getcwd ;; set_previous_directory d ;;
  w <- get_self ;; os_chdir (working_directory w) ;;
  r <- dll_invoke k_finalize_time_step ;;
  check_result (status r) "finalize_time_step" "" ;;
  w <- get_self ;; os_chdir (previous_directory w).

Definition get_subcomponent_count : M Z :=
  r <- dll_invoke k_get_subcomponent_count ;;
  check_result (status r) "get_subcomponent_count" "" ;;
  ret (out_int r).

Definition prepare_solve (component_id : Z) : M unit :=
  let cid := c_int component_id in
  d <- os_getcwd ;; set_previous_directory d ;;
  w <- get_self ;; os_chdir (working_directory w) ;;
  r <- dll_invoke (k_prepare_solve cid) ;;
  check_result (status r) "prepare_solve" "" ;;
  w <- get_self ;; os_chdir (previous_directory w).

Definition solve (component_id : Z) : M bool :=
  let cid := c_int component_id in
  d <- os_getcwd ;; set_previous_directory d ;;
  w <- get_self ;; os_chdir (working_directory w) ;;
  r <- dll_invoke (k_solve cid) ;;
  check_result (status r) "solve" "" ;;
  w <- get_self ;; os_chdir (previous_directory w) ;;
  ret (out_int r =? 1).

Definition finalize_solve (component_id : Z) : M unit :=
  let cid := c_int component_id in
  d <- os_getcwd ;; set_previous_directory d ;;
  w <- get_self ;; os_chdir (working_directory w) ;;
  r <- dll_invoke (k_finalize_solve cid) ;;
  check_result (status r) "finalize_solve" "" ;;
  w <- get_self ;; os_chdir (previous_directory w).

(** ** The protocol surface

    The public methods of the class, as data, so that a statement can
    range over all of them; [invoke] calls the method a constructor
    names and injects its result into the Python values. *)
Inductive pyvalue : Type :=
| PyNone
| PyBool (b : bool)
| PyInt (n : Z)
| PyFloat (x : double)
| PyStr (s : string)
| PyStrs (l : list string)
| PyInts (l : list Z)
| PyFloats (l : list double)
| PyArray (a : ndarray).

Definition fmap {A B : Type} (f : A -> B) (m : M A) : M B :=
  x <- m ;; ret (f x).

Inductive method : Type :=
| Call_initialize (config_file : string)
| Call_update
| Call_update_until (time : double)
| Call_finalize
| Call_get_current_time
| Call_get_start_time
| Call_get_end_time
| Call_get_time_step
| Call_get_component_name
| Call_get_input_item_count
| Call_get_output_item_count
| Call_get_input_var_names
| Call_get_output_var_names
| Call_get_var_grid (name : string)
| Call_get_var_type (name : string)
| Call_get_var_shape (name : string)
| Call_get_var_rank (name : string)
| Call_get_var_units (name : string)
| Call_get_var_itemsize (name : string)
| Call_get_var_nbytes (name : string)
| Call_get_var_location (name : string)
| Call_get_time_units
| Call_get_value (name : string) (dest : list double)
| Call_get_value_ptr (name : string)
| Call_get_value_ptr_scalar (name : string)
| Call_get_value_at_indices (name : string) (dest : list double) (inds : list Z)
| Call_set_value (name : string) (values : list double)
| Call_set_value_at_indices (name : string) (inds : list Z) (src : list double)
| Call_get_grid_rank (grid : Z)
| Call_get_grid_size (grid : Z)
| Call_get_grid_type (grid : Z)
| Call_get_grid_shape (grid : Z) (shape : list Z)
| Call_get_grid_spacing (grid : Z) (spacing : list double)
| Call_get_grid_origin (grid : Z) (origin : list double)
| Call_get_grid_x (grid : Z) (x : list double)
| Call_get_grid_y (grid : Z) (y : list double)
| Call_get_grid_z (grid : Z) (z : list double)
| Call_get_grid_node_count (grid : Z)
| Call_get_grid_edge_count (grid : Z)
| Call_get_grid_face_count (grid : Z)
| Call_get_grid_edge_nodes (grid : Z) (edge_nodes : list Z)
| Call_get_grid_face_edges (grid : Z) (face_edges : list Z)
| Call_get_grid_face_nodes (grid : Z) (face_nodes : list Z)
| Call_get_grid_nodes_per_face (grid : Z) (nodes_per_face : list Z)
| Call_prepare_time_step (dt : double)
| Call_do_time_step
| Call_finalize_time_step
| Call_get_subcomponent_count
| Call_prepare_solve (component_id : Z)
| Call_solve (component_id : Z)
| Call_finalize_solve (component_id : Z).

Definition invoke (m : method) : M pyvalue :=
  match m with
  | Call_initialize config_file => fmap (fun _ => PyNone) (initialize config_file)
  | Call_update => fmap (fun _ => PyNone) update
  | Call_update_until time => fmap (fun _ => PyNone) (update_until time)
  | Call_finalize => fmap (fun _ => PyNone) finalize
  | Call_get_current_time => fmap PyFloat get_current_time
  | Call_get_start_time => fmap PyFloat get_start_time
  | Call_get_end_time => fmap PyFloat get_end_time
  | Call_get_time_step => fmap PyFloat get_time_step
  | Call_get_component_name => fmap PyStr get_component_name
  | Call_get_input_item_count => fmap PyInt get_input_item_count
  | Call_get_output_item_count => fmap PyInt get_output_item_count
  | Call_get_input_var_names => fmap PyStrs get_input_var_names
  | Call_get_output_var_names => fmap PyStrs get_output_var_names
  | Call_get_var_grid name => fmap PyInt (get_var_grid name)
  | Call_get_var_type name => fmap PyStr (get_var_type name)
  | Call_get_var_shape name => fmap PyInts (get_var_shape name)
  | Call_get_var_rank name => fmap PyInt (get_var_rank name)
  | Call_get_var_units name => fmap PyStr (get_var_units name)
  | Call_get_var_itemsize name => fmap PyInt (get_var_itemsize name)
  | Call_get_var_nbytes name => fmap PyInt (get_var_nbytes name)
  | Call_get_var_location name => fmap PyStr (get_var_location name)
  | Call_get_time_units => fmap PyStr get_time_units
  | Call_get_value name dest => fmap PyFloats (get_value name dest)
  | Call_get_value_ptr name => fmap (fun o => match o with Some a => PyArray a | None => PyNone end) (get_value_ptr name)
  | Call_get_value_ptr_scalar name => fmap (fun o => match o with Some a => PyArray a | None => PyNone end) (get_value_ptr_scalar name)
  | Call_get_value_at_indices name dest inds => fmap PyFloats (get_value_at_indices name dest inds)
  | Call_set_value name values => fmap (fun _ => PyNone) (set_value name values)
  | Call_set_value_at_indices name inds src => fmap (fun _ => PyNone) (set_value_at_indices name inds src)
  | Call_get_grid_rank grid => fmap PyInt (get_grid_rank grid)
  | Call_get_grid_size grid => fmap PyInt (get_grid_size grid)
  | Call_get_grid_type grid => fmap PyStr (get_grid_type grid)
  | Call_get_grid_shape grid shape => fmap PyInts (get_grid_shape grid shape)
  | Call_get_grid_spacing grid spacing => fmap PyFloats (get_grid_spacing grid spacing)
  | Call_get_grid_origin grid origin => fmap PyFloats (get_grid_origin grid origin)
  | Call_get_grid_x grid x => fmap PyFloats (get_grid_x grid x)
  | Call_get_grid_y grid y => fmap PyFloats (get_grid_y grid y)
  | Call_get_grid_z grid z => fmap PyFloats (get_grid_z grid z)
  | Call_get_grid_node_count grid => fmap PyInt (get_grid_node_count grid)
  | Call_get_grid_edge_count grid => fmap PyInt (get_grid_edge_count grid)
  | Call_get_grid_face_count grid => fmap PyInt (get_grid_face_count grid)
  | Call_get_grid_edge_nodes grid edge_nodes => fmap PyInts (get_grid_edge_nodes grid edge_nodes)
  | Call_get_grid_face_edges grid face_edges => fmap PyInts (get_grid_face_edges grid face_edges)
  | Call_get_grid_face_nodes grid face_nodes => fmap PyInts (get_grid_face_nodes grid face_nodes)
  | Call_get_grid_nodes_per_face grid nodes_per_face => fmap PyInts (get_grid_nodes_per_face grid nodes_per_face)
  | Call_prepare_time_step dt => fmap (fun _ => PyNone) (prepare_time_step dt)
  | Call_do_time_step => fmap (fun _ => PyNone) do_time_step
  | Call_finalize_time_step => fmap (fun _ => PyNone) finalize_time_step
  | Call_get_subcomponent_count => fmap PyInt get_subcomponent_count
  | Call_prepare_solve component_id => fmap (fun _ => PyNone) (prepare_solve component_id)
  | Call_solve component_id => fmap PyBool (solve component_id)
  | Call_finalize_solve component_id => fmap (fun _ => PyNone) (finalize_solve component_id)
  end.

(** The methods whose body is [raise NotImplementedError]. *)
Definition unimplemented (m : method) : bool :=
  match m with
  | Call_get_component_name => true
  | Call_get_input_item_count => true
  | Call_get_output_item_count => true
  | Call_get_input_var_names => true
  | Call_get_output_var_names => true
  | Call_get_var_grid _ => true
  | Call_get_var_units _ => true
  | Call_get_var_location _ => true
  | Call_get_time_units => true
  | Call_get_value _ _ => true
  | Call_get_value_at_indices _ _ _ => true
  | Call_set_value _ _ => true
  | Call_set_value_at_indices _ _ _ => true
  | Call_get_grid_size _ => true
  | Call_get_grid_spacing _ _ => true
  | Call_get_grid_origin _ _ => true
  | Call_get_grid_node_count _ => true
  | Call_get_grid_edge_count _ => true
  | Call_get_grid_face_count _ => true
  | Call_get_grid_edge_nodes _ _ => true
  | Call_get_grid_face_edges _ _ => true
  | Call_get_grid_face_nodes _ _ => true
  | Call_get_grid_nodes_per_face _ _ => true
  | _ => false
  end.

(** How a method treats the current directory: the nine that switch to
    [self.working_directory] around one kernel call (with the call they
    make), [update_until], which switches but calls nothing, and the rest,
    which never call [os.chdir]. *)
Inductive scoping : Type :=
| Scoped (c : KCall)
| ScopedStub
| Unscoped.

Definition scoping_of (m : method) : scoping :=
  match m with
  | Call_initialize config_file => Scoped (k_initialize config_file)
  | Call_update => Scoped (k_update)
  | Call_finalize => Scoped (k_finalize)
  | Call_prepare_time_step dt => Scoped (k_prepare_time_step dt)
  | Call_do_time_step => Scoped (k_do_time_step)
  | Call_finalize_time_step => Scoped (k_finalize_time_step)
  | Call_prepare_solve component_id => Scoped (k_prepare_solve (c_int component_id))
  | Call_solve component_id => Scoped (k_solve (c_int component_id))
  | Call_finalize_solve component_id => Scoped (k_finalize_solve (c_int component_id))
  | Call_update_until _ => ScopedStub
  | _ => Unscoped
  end.


Definition failure_message (function_name detail : string) : string :=
  "MODFLOW 6 BMI, exception in: " ++ function_name ++ " (" ++ detail ++ ")".

(** What a directory-scoped method that makes the call [c] adds to the
    trace when started in state [s]. *)
Definition scoped_events (c : KCall) (s : State) : list event :=
  EvChdir (working_directory (self s)) ::
  match chdir_target (cwd s) (working_directory (self s)) with
  | None => []
  | Some d =>
      let r := fst (dll_call (dll (self s)) c d (kernel s)) in
      EvKernel c d (status r) ::
      (if status r =? BMI_SUCCESS then [EvChdir (cwd s)] else [])
  end.

(** A kernel function that, wherever and whenever it is called, reports
    success and stores the given value in its output slot. *)
Definition reports_int (d : Dll) (c : KCall) (v : Z) : Prop :=
  forall at_cwd k,
    status (fst (dll_call d c at_cwd k)) = BMI_SUCCESS /\
    out_int (fst (dll_call d c at_cwd k)) = v.

Definition reports_string (d : Dll) (c : KCall) (v : string) : Prop :=
  forall at_cwd k,
    status (fst (dll_call d c at_cwd k)) = BMI_SUCCESS /\
    out_string (fst (dll_call d c at_cwd k)) = v.

Definition reports_ints (d : Dll) (c : KCall) (v : list Z) : Prop :=
  forall at_cwd k,
    status (fst (dll_call d c at_cwd k)) = BMI_SUCCESS /\
    out_ints (fst (dll_call d c at_cwd k)) = v.

Definition reports_pointer (d : Dll) (c : KCall) (v : Z) : Prop :=
  forall at_cwd k,
    status (fst (dll_call d c at_cwd k)) = BMI_SUCCESS /\
    out_pointer (fst (dll_call d c at_cwd k)) = v.

(** [set_int]: [c_int.in_dll] refuses a symbol the library does not
    export; the assignment stores the value as a C int.  The symbol lives
    in the library, so the stored value is what [get_constant_int] reads
    next (kernel calls in between are not modelled as touching it). *)
Definition set_int (name : string) (value : Z) : M unit := fun s =>
  match dll_symbol (dll (self s)) name with
  | None => (Raise (undefined_symbol (dll (self s)) name), s)
  | Some _ =>
      let d := mk_dll (dll_name (dll (self s))) (dll_call (dll (self s)))
                 (fun n => if String.eqb n name then Some (c_int value)
                           else dll_symbol (dll (self s)) n) in
      (Return tt,
       mk_state
         (mk_wrapper (path (self s)) d (MAXSTRLEN (self s))
                     (working_directory (self s)) (previous_directory (self s)))
         (cwd s) (kernel s) (trace s))
  end.






(** A caller that invokes methods one after the other and stops at the
    first exception. *)
Fixpoint invoke_all (ms : list method) : M (list pyvalue) :=
  match ms with
  | [] => ret []
  | m :: rest =>
      v <- invoke m ;; vs <- invoke_all rest ;; ret (v :: vs)
  end.

(** The states an adapter can be in after any history of calls, whether
    they returned or raised. *)
Inductive reachable (s0 : State) : State -> Prop :=
| reach_start : reachable s0 s0
| reach_call (s : State) (m : method) :
    reachable s0 s -> reachable s0 (snd (invoke m s))
| reach_set_int (s : State) (name : string) (value : Z) :
    reachable s0 s -> reachable s0 (snd (set_int name value s)).

(** The methods that take a variable name and query the kernel about it. *)
Definition variable_of (m : method) : option string :=
  match m with
  | Call_get_var_type name | Call_get_var_shape name | Call_get_var_rank name
  | Call_get_var_itemsize name | Call_get_var_nbytes name
  | Call_get_value_ptr name | Call_get_value_ptr_scalar name => Some name
  | _ => None
  end.

(** [c in s] for a character. *)
Fixpoint has_char (c : ascii) (s : string) : bool :=
  match s with
  | EmptyString => false
  | String c' s' => Ascii.eqb c c' || has_char c s'
  end.

End Wrapper.

Arguments Dll K : clear implicits.
Arguments AmiWrapper K : clear implicits.
Arguments State K : clear implicits.
Arguments M K A : clear implicits.

(** ** A small concrete world

    A file system in which ["."] is the current directory and every
    absolute path exists, and kernels without state that answer each call
    with a fixed reply. *)

Definition example_chdir (cwd path : string) : option string :=
  if String.eqb path "." then Some cwd
  else if prefix "/" path then Some path
  else None.

Definition ok_reply : KReply := mk_reply 0 0 PrimFloat.zero "" [] [] 0.

Definition constant_dll (answer : KCall -> KReply) : Dll unit :=
  mk_dll "libmf6.so" (fun c _ k => (answer c, k))
         (fun name => if String.eqb name "MAXSTRLEN" then Some 300 else None).

Definition example_load (answer : KCall -> KReply) (path : string) : option (Dll unit) :=
  if String.eqb path "libmf6.so" then Some (constant_dll answer) else None.

(** An adapter whose working directory was set to [/model] after
    construction, used from [/home/user]. *)
Definition example_state (answer : KCall -> KReply) : State unit :=
  mk_state (mk_wrapper "libmf6.so" (constant_dll answer) 300 "/model" ".")
           "/home/user" tt [].

(** A kernel on which every call succeeds, and one on which every call
    fails with status 1. *)
Definition succeeding_kernel (c : KCall) : KReply := ok_reply.

Definition failing_kernel (c : KCall) : KReply := mk_reply 1 0 PrimFloat.zero "" [] [] 0.

(** A kernel that reports the variable [name] with the given rank, type
    string and shape, at a fixed address. *)
Definition variable_kernel (rank : Z) (type : string) (shape : list Z) (c : KCall) : KReply :=
  match c with
  | k_get_var_rank _ => mk_reply 0 rank PrimFloat.zero "" [] [] 0
  | k_get_var_type _ => mk_reply 0 0 PrimFloat.zero type [] [] 0
  | k_get_var_shape _ => mk_reply 0 0 PrimFloat.zero "" shape [] 0
  | k_get_value_ptr_double _ => mk_reply 0 0 PrimFloat.zero "" [] [] 4096
  | k_get_value_ptr_int _ => mk_reply 0 0 PrimFloat.zero "" [] [] 8192
  | _ => ok_reply
  end.


(** A kernel whose [solve] succeeds and stores [flag] in the convergence
    slot. *)
Definition solving_kernel (flag : Z) (c : KCall) : KReply :=
  match c with
  | k_solve _ => mk_reply 0 flag PrimFloat.zero "" [] [] 0
  | _ => ok_reply
  end.

(** A kernel whose grid queries fill three entries. *)
Definition grid_kernel (c : KCall) : KReply :=
  match c with
  | k_get_grid_shape _ => mk_reply 0 0 PrimFloat.zero "" [4; 5; 6] [] 0
  | _ => ok_reply
  end.

(** An adapter whose working directory is a relative path that the
    example file system does not resolve. *)
Definition unreachable_state : State unit :=
  mk_state (mk_wrapper "libmf6.so" (constant_dll succeeding_kernel) 300 "model" ".")
           "/home/user" tt [].

(** ** Symbolic execution of the methods *)

Section WrapperFacts.

Context {K : Type}.
Variable chdir_target : string -> string -> option string.
Variable LoadLibrary : string -> option (Dll K).

Implicit Types (m : method) (s : State K) (c : KCall).

Ltac unfold_methods :=
  unfold invoke, fmap,
    initialize, update, update_until, finalize,
    get_current_time, get_start_time, get_end_time, get_time_step,
    get_component_name, get_input_item_count, get_output_item_count,
    get_input_var_names, get_output_var_names, get_var_grid,
    get_value_ptr, get_value_ptr_scalar,
    get_var_shape, get_var_type, get_var_rank, get_var_units,
    get_var_itemsize, get_var_nbytes, get_var_location, get_time_units,
    get_value, get_value_at_indices, set_value, set_value_at_indices,
    get_grid_rank, get_grid_size, get_grid_type, get_grid_shape,
    get_grid_spacing, get_grid_origin, get_grid_x, get_grid_y, get_grid_z,
    get_grid_node_count, get_grid_edge_count, get_grid_face_count,
    get_grid_edge_nodes, get_grid_face_edges, get_grid_face_nodes,
    get_grid_nodes_per_face,
    prepare_time_step, do_time_step, finalize_time_step,
    get_subcomponent_count, prepare_solve, solve, finalize_solve,
    check_result, get_self, os_getcwd, set_previous_directory, os_chdir,
    dll_invoke, bind, ret, raise, lift, create_string_buffer, np_zeros,
    contents, BMI_SUCCESS, BMI_FAILURE.

Ltac reduce_state :=
  cbn [fst snd self cwd kernel trace path dll MAXSTRLEN working_directory
       previous_directory negb] in *.

Ltac exec_step :=
  match goal with
  | |- context [Z.ltb ?a 0] =>
      let E := fresh "Eneg" in destruct (Z.ltb a 0) eqn:E
  | |- context [dll_call ?d ?c ?p ?k] =>
      let r := fresh "r" in
      let k' := fresh "k" in
      let E := fresh "Ecall" in
      destruct (dll_call d c p k) as [r k'] eqn:E
  | |- context [chdir_target ?a ?b] =>
      let E := fresh "Edir" in destruct (chdir_target a b) eqn:E
  | |- context [contents_error ?a ?b] =>
      let E := fresh "Eview" in destruct (contents_error a b) eqn:E
  | |- context [startswith ?a ?b] =>
      let E := fresh "Etype" in destruct (startswith a b) eqn:E
  | |- context [Z.eqb 1 0] => change (Z.eqb 1 0) with false
  | |- context [Z.eqb ?a 0] =>
      let E := fresh "Estatus" in destruct (Z.eqb a 0) eqn:E
  end; reduce_state.

Ltac exec := unfold_methods; reduce_state; repeat exec_step.

(** *** Shared lemmas on the trace and on the current directory *)

Lemma scoped_trace m c s :
  scoping_of m = Scoped c ->
  trace (snd (invoke chdir_target m s)) = (trace s ++ scoped_events chdir_target c s)%list.
Proof.
  destruct s as [w d k t]; destruct m; cbn [scoping_of]; intros H;
    try discriminate H; injection H as <-; unfold scoped_events;
    exec; rewrite <- ?app_assoc; reflexivity.
Qed.

Lemma stub_trace (time : double) s :
  trace (snd (update_until chdir_target time s)) =
  (trace s ++ [EvChdir (working_directory (self s))])%list.
Proof. destruct s as [w d k t]; exec; reflexivity. Qed.

(** A method that never calls [os.chdir] adds kernel calls only, all made
    in the directory it was entered in. *)
Lemma unscoped_trace m s :
  scoping_of m = Unscoped ->
  exists evs,
    trace (snd (invoke chdir_target m s)) = (trace s ++ evs)%list /\
    Forall (in_directory (cwd s)) evs.
Proof.
  destruct s as [w d k t]; destruct m; cbn [scoping_of]; intros H;
    try discriminate H; clear H; exec; rewrite <- ?app_assoc;
    (eexists; split;
     [ first [ reflexivity | symmetry; apply app_nil_r ]
     | repeat constructor; unfold in_directory; eauto ]).
Qed.

Lemma unscoped_cwd m s :
  scoping_of m = Unscoped -> cwd (snd (invoke chdir_target m s)) = cwd s.
Proof.
  destruct s as [w d k t]; destruct m; cbn [scoping_of]; intros H;
    try discriminate H; clear H; exec; reflexivity.
Qed.

(** Where a directory-scoped method leaves the process: in the caller's
    directory only when the kernel call succeeded (or was never made). *)
Lemma scoped_cwd m c s :
  scoping_of m = Scoped c ->
  cwd (snd (invoke chdir_target m s)) =
  match chdir_target (cwd s) (working_directory (self s)) with
  | None => cwd s
  | Some d =>
      if status (fst (dll_call (dll (self s)) c d (kernel s))) =? BMI_SUCCESS
      then match chdir_target d (cwd s) with Some d' => d' | None => d end
      else d
  end.
Proof.
  destruct s as [w d k t]; destruct m; cbn [scoping_of]; intros H;
    try discriminate H; injection H as <-; exec; congruence.
Qed.

Lemma working_directory_kept m s :
  working_directory (self (snd (invoke chdir_target m s))) = working_directory (self s).
Proof. destruct s as [w d k t]; destruct m; exec; reflexivity. Qed.


(** *** The claims that hold for every kernel and file system *)

(** C2 (amended).  Only the nine lifecycle and coupling methods bracket
    their kernel call: they switch to the configured working directory,
    make the call in the directory that switch leads to and, when the
    kernel reports success, switch back to the captured directory.
    [update_until] switches and calls nothing.  Every other method (the
    clock, variable, value-pointer and grid queries and
    [get_subcomponent_count]) never switches: its kernel calls run in the
    caller's current directory. *)
Theorem kernel_call_directory m s :
  match scoping_of m with
  | Scoped c =>
      trace (snd (invoke chdir_target m s)) =
      (trace s ++ scoped_events chdir_target c s)%list
  | ScopedStub =>
      trace (snd (invoke chdir_target m s)) =
      (trace s ++ [EvChdir (working_directory (self s))])%list
  | Unscoped =>
      exists evs,
        trace (snd (invoke chdir_target m s)) = (trace s ++ evs)%list /\
        Forall (in_directory (cwd s)) evs
  end.
Proof.
  destruct (scoping_of m) eqn:E.
  - now apply scoped_trace.
  - destruct m; try discriminate E. cbn [invoke]. unfold fmap, bind at 1.
    pose proof (stub_trace time s) as H.
    destruct (update_until chdir_target time s) as [[[]|e] s']; exact H.
  - now apply unscoped_trace.
Qed.

(** C6.  When both directory switches succeed and the kernel's [solve]
    reports success, [solve] returns [True] exactly when the integer the
    kernel stored in the convergence slot is 1, and [False] for every
    other integer. *)
Theorem solve_converged_iff_one (component_id : Z) s (d d' : string)
    (r : KReply) (k' : K) :
  chdir_target (cwd s) (working_directory (self s)) = Some d ->
  dll_call (dll (self s)) (k_solve (c_int component_id)) d (kernel s) = (r, k') ->
  status r = BMI_SUCCESS ->
  chdir_target d (cwd s) = Some d' ->
  fst (solve chdir_target component_id s) = Return (out_int r =? 1) /\
  (fst (solve chdir_target component_id s) = Return true <-> out_int r = 1) /\
  (fst (solve chdir_target component_id s) = Return false <-> out_int r <> 1).
Proof.
  intros Hin Hcall Hok Hback. destruct s as [w d0 k t]. reduce_state.
  assert (Hrun : fst (solve chdir_target component_id (mk_state w d0 k t))
                 = Return (out_int r =? 1)).
  { unfold_methods; reduce_state. rewrite Hin; reduce_state.
    rewrite Hcall; reduce_state. unfold BMI_SUCCESS in Hok. rewrite Hok.
    change (0 =? 0) with true; reduce_state. rewrite Hback. reflexivity. }
  rewrite Hrun. split; [reflexivity|].
  destruct (Z.eqb_spec (out_int r) 1); split; split; intros H;
    congruence.
Qed.

(** C7.  [update_until] raises on every input and in every state, without
    calling the kernel: the [check_result] exception when the switch to
    the working directory succeeded, the [OSError] of that switch
    otherwise.  Every method whose body is [raise NotImplementedError]
    raises it at once, leaving the state as it was. *)
Theorem unsupported_methods_always_raise :
  (forall (time : double) s,
      fst (update_until chdir_target time s) =
      Raise (match chdir_target (cwd s) (working_directory (self s)) with
             | Some _ => Exception (failure_message "update_until" "")
             | None => OSError (working_directory (self s))
             end) /\
      kernel (snd (update_until chdir_target time s)) = kernel s /\
      trace (snd (update_until chdir_target time s)) =
      (trace s ++ [EvChdir (working_directory (self s))])%list) /\
  (forall m s, unimplemented m = true ->
      invoke chdir_target m s = (Raise NotImplementedError, s)).
Proof.
  split.
  - intros time [w d k t]. unfold failure_message. exec; repeat split.
  - intros m s H. destruct m; try discriminate H; reflexivity.
Qed.








(** C10.  The constructor takes the library path alone.  When it
    succeeds, the new adapter has [working_directory] and
    [previous_directory] both equal to ["."].  Whatever is called on it
    afterwards, [working_directory] stays ["."]: at any later moment a
    method with directory scoping begins by switching to ["."], and the
    kernel call of a scoped method runs in the caller's own directory
    whenever ["."] resolves to it. *)
Theorem constructor_defaults (p : string) (w : AmiWrapper K) :
  AmiWrapper__init__ LoadLibrary p = Return w ->
  path w = p /\ working_directory w = "." /\ previous_directory w = "." /\
  forall s0 s, self s0 = w -> reachable chdir_target s0 s ->
    working_directory (self s) = "." /\
    forall m,
      (scoping_of m <> Unscoped ->
       exists rest,
         trace (snd (invoke chdir_target m s)) =
         (trace s ++ EvChdir "." :: rest)%list) /\
      (forall c, scoping_of m = Scoped c ->
         chdir_target (cwd s) "." = Some (cwd s) ->
         In (EvKernel c (cwd s)
               (status (fst (dll_call (dll (self s)) c (cwd s) (kernel s)))))
            (trace (snd (invoke chdir_target m s)))).
Proof.
  unfold AmiWrapper__init__, get_constant_int. intros H.
  destruct (LoadLibrary p) as [dl|]; [|discriminate H].
  destruct (dll_symbol dl "MAXSTRLEN") as [n|]; [|discriminate H].
  injection H as <-. cbn [path working_directory previous_directory].
  repeat split; trivial.
  all: assert (Hwd : working_directory (self s) = ".")
    by (induction H0 as [|s1 m1 _ IH|s1 name value _ IH];
        [ rewrite H; reflexivity
        | rewrite working_directory_kept; exact IH
        | unfold set_int; destruct (dll_symbol (dll (self s1)) name);
          cbn [snd self working_directory]; exact IH ]).
  - exact Hwd.
  - intros Hm. destruct (scoping_of m) as [c| |] eqn:E.
    + rewrite (scoped_trace _ _ _ E). unfold scoped_events. rewrite Hwd.
      eexists. reflexivity.
    + destruct m; try discriminate E. exists []. rewrite <- Hwd.
      cbn [invoke]. unfold fmap, bind at 1.
      pose proof (stub_trace time s) as Ht.
      destruct (update_until chdir_target time s) as [[[]|e] s']; exact Ht.
    + contradiction.
  - intros c Hc Hdot. rewrite (scoped_trace _ _ _ Hc). unfold scoped_events.
    rewrite Hwd, Hdot. apply in_or_app. right. right. left. reflexivity.
Qed.

(** The type string ["DOUBLE PRECISION"] read back from a buffer of at
    least six bytes still starts with ["double"] once lowered. *)
Lemma double_precision_prefix (n : nat) :
  (6 <= n)%nat ->
  startswith (lower (buffer_value n "DOUBLE PRECISION")) "double" = true.
Proof.
  intros H. do 6 (destruct n as [|n]; [lia|]). clear H.
  destruct n; vm_compute; reflexivity.
Qed.


Ltac use_report H :=
  match goal with
  | E : dll_call ?dl ?c ?d ?k = (?r, _) |- _ =>
      match type of H with
      | _ dl c _ =>
          let Hs := fresh "Hs" in
          let Ho := fresh "Ho" in
          destruct (H d k) as [Hs Ho]; rewrite E in Hs, Ho;
          cbn [fst] in Hs, Ho; unfold BMI_SUCCESS in Hs;
          rewrite ?Hs, ?Ho in *; clear E
      end
  end.

Ltac consts :=
  repeat progress
    (change (0 =? 0) with true; change (3 =? 0) with false;
     change (3 <? 0) with false; reduce_state).

(** *** When [values.contents] succeeds *)

Lemma product_positive (shape : list Z) :
  Forall (fun n => 0 < n) shape -> 0 < product shape.
Proof.
  induction 1 as [|n shape Hn _ IH]; cbn [product fold_right]; [lia|].
  fold (product shape). nia.
Qed.

Lemma product_zero (shape : list Z) : In 0 shape -> product shape = 0.
Proof.
  induction shape as [|n shape IH]; cbn [product fold_right In]; [tauto|].
  fold (product shape). intros [->|H]; [reflexivity|]. rewrite (IH H). lia.
Qed.

Lemma no_negative_entry (shape : list Z) :
  existsb (fun n => n <? 0) shape = false <-> Forall (fun n => 0 <= n) shape.
Proof.
  induction shape as [|n shape IH]; cbn [existsb].
  - split; [constructor|reflexivity].
  - rewrite orb_false_iff, IH, Z.ltb_ge. split.
    + intros [H1 H2]. constructor; assumption.
    + intros H. inversion H; subst. split; assumption.
Qed.

(** [values.contents] gives the view exactly when every dimension is
    positive, the size in bytes fits a C int and the address is not
    NULL. *)
Lemma contents_error_none (t : ndpointer) (address : Z) :
  contents_error t address = None <->
  Forall (fun n => 0 < n) (nd_shape t) /\
  itemsize (nd_dtype t) * product (nd_shape t) < 2 ^ 31 /\
  address <> 0.
Proof.
  unfold contents_error.
  assert (Hitem : 0 < itemsize (nd_dtype t)) by (destruct (nd_dtype t); cbn; lia).
  destruct (existsb (fun n => n <? 0) (nd_shape t)) eqn:Eneg.
  - split; [discriminate|]. intros (Hpos & _ & _). exfalso.
    assert (H : existsb (fun n => n <? 0) (nd_shape t) = false).
    { apply no_negative_entry. eapply Forall_impl; [|exact Hpos].
      cbn. intros; lia. }
    congruence.
  - apply no_negative_entry in Eneg.
    destruct (Z.leb_spec (2 ^ 31) (itemsize (nd_dtype t) * product (nd_shape t)))
      as [Hbig|Hfit].
    { split; [discriminate|]. intros (_ & H & _). lia. }
    destruct (Z.eqb_spec address 0) as [Hnull|Haddr].
    { split; [discriminate|]. intros (_ & _ & H). contradiction. }
    destruct (Z.eqb_spec (itemsize (nd_dtype t) * product (nd_shape t)) 0)
      as [Hzero|Hsize].
    + split; [discriminate|]. intros (Hpos & _ & _).
      apply product_positive in Hpos. nia.
    + split; [intros _|reflexivity]. split; [|split; assumption].
      rewrite Forall_forall in *. intros n Hn.
      specialize (Eneg n Hn). cbn in Eneg.
      destruct (Z.eq_dec n 0) as [->|Hne]; [|lia].
      exfalso. apply Hsize. rewrite (product_zero _ Hn). lia.
Qed.

(** C5 (amended).  For a variable of kernel-reported rank 3 whose shape
    array is [0, 10, 5] and whose type string is ["DOUBLE PRECISION"]
    (read through a string buffer of at least six bytes),
    [get_value_ptr] returns the [float64] view of shape (10, 5) over the
    memory at the address the kernel's [get_value_ptr_double] stored,
    when that address is not NULL; the call made last is that pointer
    query.  The order of the view in memory is not part of the
    statement. *)
Theorem get_value_ptr_padded_double (name : string) s (address : Z) :
  6 <= MAXSTRLEN (self s) ->
  address <> 0 ->
  reports_int (dll (self s)) (k_get_var_rank name) 3 ->
  reports_string (dll (self s)) (k_get_var_type name) "DOUBLE PRECISION" ->
  reports_ints (dll (self s)) (k_get_var_shape name) [0; 10; 5] ->
  reports_pointer (dll (self s)) (k_get_value_ptr_double name) address ->
  fst (get_value_ptr name s) = Return (Some (mk_ndarray float64 [10; 5] address)) /\
  last (trace (snd (get_value_ptr name s))) (EvChdir "") =
    EvKernel (k_get_value_ptr_double name) (cwd s) BMI_SUCCESS.
Proof.
  intros Hlen Haddr Hrank Htype Hshape Hptr. destruct s as [w d k t].
  reduce_state.
  assert (Hd : startswith
                 (lower (buffer_value (Z.to_nat (MAXSTRLEN w)) "DOUBLE PRECISION"))
                 "double" = true)
    by (apply double_precision_prefix; lia).
  assert (Hview : contents_error (mk_ndpointer float64 2 [10; 5] "F") address = None).
  { apply contents_error_none. cbn. repeat constructor; lia. }
  unfold_methods; reduce_state.
  exec_step; use_report Hrank; consts.
  exec_step; [apply Z.ltb_lt in Eneg; lia|].
  exec_step; use_report Htype; consts.
  exec_step; use_report Hrank; consts.
  exec_step; use_report Hshape; consts.
  rewrite Hd.
  exec_step; use_report Hptr; consts.
  change (trim_zeros (fill (repeat 0 (Z.to_nat 3)) [0; 10; 5])) with [10; 5].
  cbn [List.length]. rewrite Hview. reduce_state.
  split; [reflexivity|apply last_last].
Qed.

(** What the four grid methods that build their detail from [str(id)]
    raise when the kernel fails: the same text for every grid. *)
Lemma grid_failure_detail (grid : Z) (shape : list Z) (x : list double) s :
  status (fst (dll_call (dll (self s)) (k_get_grid_shape (c_int grid)) (cwd s) (kernel s)))
    <> BMI_SUCCESS ->
  status (fst (dll_call (dll (self s)) (k_get_grid_x (c_int grid)) (cwd s) (kernel s)))
    <> BMI_SUCCESS ->
  fst (get_grid_shape grid shape s) =
    Raise (Exception (failure_message "get_grid_shape" "for id <built-in function id>")) /\
  fst (get_grid_x grid x s) =
    Raise (Exception (failure_message "get_grid_x" "for id <built-in function id>")).
Proof.
  destruct s as [w d k t]. reduce_state. unfold failure_message, BMI_SUCCESS.
  intros H1 H2. split; exec; cbn [fst] in *;
    first [ reflexivity | apply Z.eqb_eq in Estatus; contradiction ].
Qed.

(** A directory-scoped method whose kernel call fails leaves the process
    in the working directory; one whose call succeeds goes back. *)
Lemma scoped_failure_stays m c s (d : string) :
  scoping_of m = Scoped c ->
  chdir_target (cwd s) (working_directory (self s)) = Some d ->
  status (fst (dll_call (dll (self s)) c d (kernel s))) <> BMI_SUCCESS ->
  cwd (snd (invoke chdir_target m s)) = d.
Proof.
  intros Hm Hd Hfail. rewrite (scoped_cwd _ _ _ Hm), Hd.
  destruct (Z.eqb_spec (status (fst (dll_call (dll (self s)) c d (kernel s)))) BMI_SUCCESS);
    [contradiction|reflexivity].
Qed.

Lemma scoped_success_returns m c s (d : string) :
  scoping_of m = Scoped c ->
  chdir_target (cwd s) (working_directory (self s)) = Some d ->
  status (fst (dll_call (dll (self s)) c d (kernel s))) = BMI_SUCCESS ->
  chdir_target d (cwd s) = Some (cwd s) ->
  cwd (snd (invoke chdir_target m s)) = cwd s.
Proof.
  intros Hm Hd Hok Hback. rewrite (scoped_cwd _ _ _ Hm), Hd, Hok, Hback.
  reflexivity.
Qed.

End WrapperFacts.


(** ** Substrings *)

Lemma prefix_app (p s : string) :
  prefix p s = true <-> exists rest, s = p ++ rest.
Proof.
  revert s. induction p as [|a p IH]; intros s; cbn [prefix append].
  - destruct s; (split; [intros _; eexists; reflexivity|reflexivity]).
  - destruct s as [|b s]; cbn [prefix].
    + split; [discriminate|]. intros [rest H]. discriminate H.
    + destruct (ascii_dec a b) as [->|Hab].
      * rewrite IH. split; intros [rest H]; exists rest; congruence.
      * split; [discriminate|]. intros [rest H]. congruence.
Qed.

(** [contains] decides the presence of a substring. *)
Lemma contains_spec (sub s : string) :
  contains sub s = true <-> exists before after, s = before ++ sub ++ after.
Proof.
  split.
  - induction s as [|c s IH]; cbn [contains]; intros H;
      apply orb_true_iff in H; destruct H as [H|H];
      try (apply prefix_app in H; destruct H as [rest ->];
           exists "", rest; reflexivity);
      try discriminate H.
    destruct (IH H) as (before & after & ->).
    exists (String c before), after. reflexivity.
  - intros (before & after & ->). induction before as [|c before IH].
    + cbn [append]. destruct (sub ++ after) eqn:E; cbn [contains];
        apply orb_true_iff; left; apply prefix_app; exists after; auto.
    + cbn [append contains]. apply orb_true_iff. right. exact IH.
Qed.

(** ** Trimming a shape array *)

Lemma all_zero_repeat (n : nat) : all_zero (repeat 0 n).
Proof. induction n; constructor; auto. Qed.

Lemma firstn_repeat_all (n : nat) : firstn n (repeat 0 n) = repeat 0 n.
Proof. induction n; cbn [repeat firstn]; [reflexivity|]. f_equal. exact IHn. Qed.

Lemma leading_zeros_split (l : list Z) :
  l = (repeat 0 (leading_zeros l) ++ skipn (leading_zeros l) l)%list.
Proof.
  induction l as [|x l IH]; [reflexivity|]. cbn [leading_zeros].
  destruct (Z.eqb_spec x 0) as [->|Hx]; [|reflexivity].
  cbn [repeat skipn app]. f_equal. exact IH.
Qed.

Lemma leading_zeros_head (l : list Z) :
  hd 1 (skipn (leading_zeros l) l) <> 0.
Proof.
  induction l as [|x l IH]; cbn [leading_zeros skipn hd]; [lia|].
  destruct (Z.eqb_spec x 0) as [->|Hx]; [exact IH|exact Hx].
Qed.

Lemma leading_zeros_le (l : list Z) : (leading_zeros l <= List.length l)%nat.
Proof.
  induction l as [|x l IH]; cbn [leading_zeros List.length]; [lia|].
  destruct (x =? 0); lia.
Qed.

Lemma leading_zeros_none (l : list Z) : hd 1 l <> 0 -> leading_zeros l = 0%nat.
Proof.
  destruct l as [|x l]; [reflexivity|]. cbn [hd leading_zeros]. intros H.
  destruct (Z.eqb_spec x 0); [contradiction|reflexivity].
Qed.

(** Zeros that follow a non-zero entry are not leading zeros. *)
Lemma leading_zeros_app (l tail : list Z) :
  (leading_zeros l < List.length l)%nat ->
  leading_zeros (l ++ tail) = leading_zeros l.
Proof.
  induction l as [|x l IH]; cbn [leading_zeros List.length app]; [lia|].
  destruct (x =? 0); [|reflexivity]. intros H. f_equal. apply IH. lia.
Qed.

Lemma leading_zeros_all (l : list Z) :
  leading_zeros l = List.length l -> all_zero l.
Proof.
  induction l as [|x l IH]; cbn [leading_zeros List.length]; [constructor|].
  destruct (Z.eqb_spec x 0) as [->|Hx]; [|discriminate].
  intros H. constructor; [reflexivity|]. apply IH. lia.
Qed.

Lemma hd_rev (d : Z) (l : list Z) : hd d (rev l) = last l d.
Proof.
  induction l as [|x l IH]; [reflexivity|]. cbn [rev].
  destruct l as [|y l]; [reflexivity|].
  change (last (x :: y :: l) d) with (last (y :: l) d). rewrite <- IH.
  cbn [rev]. destruct (rev l ++ [y])%list eqn:E; [|reflexivity].
  destruct (rev l); discriminate E.
Qed.

Lemma last_rev (d : Z) (l : list Z) : last (rev l) d = hd d l.
Proof. rewrite <- (rev_involutive l) at 2. symmetry. apply hd_rev. Qed.

Lemma hd_app (d : Z) (l tail : list Z) : l <> [] -> hd d (l ++ tail) = hd d l.
Proof. destruct l; [congruence|reflexivity]. Qed.

(** The three pieces of a shape array: the zeros in front, what
    [trim_zeros] keeps, the zeros at the back. *)
Lemma trim_zeros_pieces (l : list Z) :
  l = (repeat 0 (leading_zeros l) ++ trim_zeros l ++
       repeat 0 (List.length l - leading_zeros l - List.length (trim_zeros l)))%list /\
  hd 1 (trim_zeros l) <> 0 /\ last (trim_zeros l) 1 <> 0.
Proof.
  unfold trim_zeros, slice.
  pose proof (leading_zeros_split l) as Hl.
  pose proof (leading_zeros_head l) as Hh.
  remember (leading_zeros (rev l)) as b eqn:Eb0.
  remember (leading_zeros l) as a eqn:Ea.
  remember (skipn a l) as l1 eqn:El.
  assert (Hlen : List.length l = (a + List.length l1)%nat).
  { rewrite Hl at 1. rewrite length_app, repeat_length. reflexivity. }
  destruct (list_eq_dec Z.eq_dec l1 []) as [El1|Hne].
  - rewrite El1 in *. rewrite firstn_nil. cbn [List.length app hd last] in *.
    replace (List.length l - a - 0)%nat with 0%nat by lia.
    cbn [repeat app]. repeat split; [exact Hl|lia..].
  - assert (Hb : b = leading_zeros (rev l1) /\ (b < List.length l1)%nat).
    { assert (Hlt : (leading_zeros (rev l1) < List.length (rev l1))%nat).
      { pose proof (leading_zeros_le (rev l1)) as Hle.
        destruct (Nat.eq_dec (leading_zeros (rev l1)) (List.length (rev l1))) as [E|E];
          [|lia].
        apply leading_zeros_all in E. exfalso. apply Hh.
        unfold all_zero in E. rewrite Forall_forall in E. apply E.
        apply in_rev. rewrite rev_involutive.
        destruct l1; [congruence|]. left. reflexivity. }
      assert (E : b = leading_zeros (rev l1)).
      { rewrite Eb0. rewrite Hl at 1. rewrite rev_app_distr, rev_repeat.
        apply leading_zeros_app. exact Hlt. }
      split; [exact E|]. rewrite E. rewrite length_rev in Hlt. exact Hlt. }
    destruct Hb as [Eb Hb].
    replace (List.length l - b - a)%nat with (List.length l1 - b)%nat by lia.
    set (mid := firstn (List.length l1 - b) l1).
    assert (Hmid : mid = rev (skipn b (rev l1))).
    { rewrite skipn_rev, rev_involutive. reflexivity. }
    assert (Hback : skipn (List.length l1 - b) l1 = repeat 0 b).
    { pose proof (leading_zeros_split (rev l1)) as Hs. rewrite <- Eb in Hs.
      apply (f_equal (firstn b)) in Hs.
      rewrite firstn_app, repeat_length, Nat.sub_diag, firstn_O, app_nil_r in Hs.
      rewrite firstn_repeat_all in Hs.
      rewrite firstn_rev in Hs. apply (f_equal (@rev Z)) in Hs.
      rewrite rev_involutive, rev_repeat in Hs. exact Hs. }
    assert (Hl1 : l1 = (mid ++ repeat 0 b)%list).
    { rewrite <- Hback. symmetry. apply firstn_skipn. }
    assert (Hmlen : List.length mid = (List.length l1 - b)%nat).
    { unfold mid. rewrite length_firstn. lia. }
    repeat split.
    + rewrite Hmlen. replace (List.length l - a - (List.length l1 - b))%nat with b by lia.
      rewrite <- Hl1. exact Hl.
    + assert (Hm : mid <> []).
      { intros E. rewrite E in Hmlen. cbn in Hmlen. lia. }
      rewrite Hl1 in Hh. rewrite hd_app in Hh by exact Hm. exact Hh.
    + rewrite Hmid, last_rev, Eb. apply leading_zeros_head.
Qed.

(** C4 (amended).  The logical shape is the raw shape array without its
    leading zeros and without its trailing zeros: the array is some zeros,
    then the logical shape, then some zeros; the logical shape neither
    begins nor ends with a zero, so every entry from the first non-zero
    one to the last non-zero one is kept, interior zeros included.
    Trimming changes nothing exactly when the array neither begins nor
    ends with a zero. *)
Theorem trim_zeros_both_ends (shape : list Z) :
  (exists front back,
      shape = (front ++ trim_zeros shape ++ back)%list /\
      all_zero front /\ all_zero back) /\
  hd 1 (trim_zeros shape) <> 0 /\
  last (trim_zeros shape) 1 <> 0 /\
  (trim_zeros shape = shape <-> hd 1 shape <> 0 /\ last shape 1 <> 0).
Proof.
  destruct (trim_zeros_pieces shape) as (Hsplit & Hhd & Hlast).
  split; [|split; [exact Hhd|split; [exact Hlast|]]].
  - do 2 eexists. split; [exact Hsplit|]. split; apply all_zero_repeat.
  - split.
    + intros E. rewrite E in Hhd, Hlast. auto.
    + intros [H1 H2]. unfold trim_zeros, slice.
      rewrite (leading_zeros_none shape H1).
      rewrite (leading_zeros_none (rev shape)) by (rewrite hd_rev; exact H2).
      cbn [skipn]. rewrite !Nat.sub_0_r. apply firstn_all.
Qed.

(** ** The claims on the concrete world *)

(** C1.  [initialize] on a kernel that reports failure: the exception of
    [check_result] propagates and the process is left in the working
    directory, not in the directory the caller was in. *)
Theorem initialize_failure_leaves_working_directory :
  let s := example_state failing_kernel in
  let run := initialize example_chdir "mfsim.nam" s in
  cwd s = "/home/user" /\
  fst run = Raise (Exception "MODFLOW 6 BMI, exception in: initialize ()") /\
  cwd (snd run) = "/model" /\
  trace (snd run) =
    [EvChdir "/model"; EvKernel (k_initialize "mfsim.nam") "/model" 1].
Proof. repeat split. Qed.

(** C2, as stated, fails: [get_current_time] calls the kernel in the
    caller's directory although the working directory is [/model]; no
    directory switch brackets the call. *)
Lemma get_current_time_runs_in_caller_directory :
  let s := example_state succeeding_kernel in
  working_directory (self s) = "/model" /\
  example_chdir (cwd s) (working_directory (self s)) = Some "/model" /\
  trace (snd (get_current_time s)) =
    [EvKernel k_get_current_time "/home/user" 0].
Proof. repeat split. Qed.

(** C3.  A variable of rank 1 whose type string is ["CHARACTER"]: every
    kernel query succeeds and [get_value_ptr] returns [None].  The same
    happens on the scalar path. *)
Theorem get_value_ptr_unrecognised_type_returns_None :
  fst (get_value_ptr "FLAG" (example_state (variable_kernel 1 "CHARACTER" [3])))
    = Return None /\
  fst (get_value_ptr "FLAG" (example_state (variable_kernel 0 "CHARACTER" [])))
    = Return None.
Proof. split; reflexivity. Qed.

(** C4, as stated, fails: the leading zero of [0, 10, 5] is removed,
    although that array has no trailing zero. *)
Lemma trim_zeros_drops_leading_zero :
  trim_zeros [0; 10; 5] = [10; 5] /\
  last [0; 10; 5] 1 <> 0 /\
  trim_zeros [0; 10; 5] <> [0; 10; 5].
Proof. repeat split; cbn; [lia|discriminate]. Qed.

(** C5, as stated, fails: with a reported rank of 2 the shape array has
    two entries whatever the kernel writes, so a kernel writing 0, 10, 5
    leaves [0, 10] and the array returned has one dimension.  And with
    a reported rank of 3, where the shape is (10, 5), the view is laid
    out row-major: its strides are (40, 8) and numpy's test for
    column-major order fails on it. *)
Lemma get_value_ptr_rank_two_has_two_entries :
  (let s := example_state (variable_kernel 2 "DOUBLE PRECISION" [0; 10; 5]) in
   fst (get_var_shape "HEAD" s) = Return [0; 10] /\
   fst (get_value_ptr "HEAD" s) = Return (Some (mk_ndarray float64 [10] 4096))) /\
  (let s := example_state (variable_kernel 3 "DOUBLE PRECISION" [0; 10; 5]) in
   exists view,
     fst (get_value_ptr "HEAD" s) = Return (Some view) /\
     array_shape view = [10; 5] /\
     array_strides view = [40; 8] /\
     f_contiguous view = false).
Proof.
  split; [split; reflexivity|].
  eexists. split; [reflexivity|]. repeat split.
Qed.

Lemma get_value_ptr_padded_double_witness :
  fst (get_value_ptr "HEAD"
         (example_state (variable_kernel 3 "DOUBLE PRECISION" [0; 10; 5]))) =
  Return (Some (mk_ndarray float64 [10; 5] 4096)).
Proof.
  apply (get_value_ptr_padded_double "HEAD"
           (example_state (variable_kernel 3 "DOUBLE PRECISION" [0; 10; 5])) 4096).
  - cbn. discriminate.
  - discriminate.
  - intros d k. split; reflexivity.
  - intros d k. split; reflexivity.
  - intros d k. split; reflexivity.
  - intros d k. split; reflexivity.
Defined.

Lemma solve_converged_iff_one_witness :
  fst (solve example_chdir 1 (example_state (solving_kernel 1))) = Return true /\
  fst (solve example_chdir 1 (example_state (solving_kernel 2))) = Return false /\
  fst (solve example_chdir 1 (example_state (solving_kernel (-1)))) = Return false.
Proof.
  split; [|split].
  - apply (proj1 (solve_converged_iff_one example_chdir 1
                    (example_state (solving_kernel 1)) "/model" "/home/user"
                    (solving_kernel 1 (k_solve 1)) tt
                    eq_refl eq_refl eq_refl eq_refl)).
  - apply (proj1 (solve_converged_iff_one example_chdir 1
                    (example_state (solving_kernel 2)) "/model" "/home/user"
                    (solving_kernel 2 (k_solve 1)) tt
                    eq_refl eq_refl eq_refl eq_refl)).
  - apply (proj1 (solve_converged_iff_one example_chdir 1
                    (example_state (solving_kernel (-1))) "/model" "/home/user"
                    (solving_kernel (-1) (k_solve 1)) tt
                    eq_refl eq_refl eq_refl eq_refl)).
Defined.

Lemma unsupported_methods_always_raise_witness :
  (exists e, fst (update_until example_chdir PrimFloat.zero
                    (example_state succeeding_kernel)) = Raise e) /\
  invoke example_chdir (Call_get_value "HEAD" [])
         (example_state succeeding_kernel) =
  (Raise NotImplementedError, example_state succeeding_kernel).
Proof.
  destruct (unsupported_methods_always_raise (K := unit) example_chdir)
    as [Hstub Hraise].
  split.
  - eexists. apply (Hstub PrimFloat.zero (example_state succeeding_kernel)).
  - apply Hraise. reflexivity.
Defined.



(** C9.  [get_grid_shape], [get_grid_x], [get_grid_y] and [get_grid_z]
    on grid 7 with a failing kernel: the detail is the text of Python's
    builtin [id] and the grid number appears nowhere in the message,
    whereas [get_grid_rank] and [get_grid_type] do report it. *)
Theorem grid_failure_omits_grid_id :
  let s := example_state failing_kernel in
  fst (get_grid_shape 7 [0; 0] s) =
    Raise (Exception "MODFLOW 6 BMI, exception in: get_grid_shape (for id <built-in function id>)") /\
  fst (get_grid_x 7 [] s) =
    Raise (Exception "MODFLOW 6 BMI, exception in: get_grid_x (for id <built-in function id>)") /\
  fst (get_grid_y 7 [] s) =
    Raise (Exception "MODFLOW 6 BMI, exception in: get_grid_y (for id <built-in function id>)") /\
  fst (get_grid_z 7 [] s) =
    Raise (Exception "MODFLOW 6 BMI, exception in: get_grid_z (for id <built-in function id>)") /\
  contains (str_int 7)
    "MODFLOW 6 BMI, exception in: get_grid_shape (for id <built-in function id>)" = false /\
  fst (get_grid_rank 7 s) =
    Raise (Exception "MODFLOW 6 BMI, exception in: get_grid_rank (for id 7)") /\
  fst (get_grid_type 7 s) =
    Raise (Exception "MODFLOW 6 BMI, exception in: get_grid_type (for id 7)").
Proof. repeat split. Qed.

Lemma constructor_defaults_witness :
  exists w,
    AmiWrapper__init__ (example_load succeeding_kernel) "libmf6.so" = Return w /\
    working_directory w = "." /\ previous_directory w = "." /\
    working_directory
      (self (snd (invoke example_chdir Call_update
                    (snd (invoke example_chdir Call_update
                            (mk_state w "/home/user" tt [])))))) = ".".
Proof.
  eexists. split; [reflexivity|].
  destruct (constructor_defaults example_chdir (example_load succeeding_kernel)
              "libmf6.so" _ eq_refl) as (_ & Hw & Hp & Hall).
  split; [exact Hw|split; [exact Hp|]].
  refine (proj1 (Hall (mk_state _ "/home/user" tt []) _ eq_refl
                   (reach_call _ _ _ _ (reach_call _ _ _ _ (reach_start _ _))))).
Defined.

(** ** Further properties of the wrapper *)

Ltac sym_unfold :=
  unfold invoke, fmap,
    initialize, update, update_until, finalize,
    get_current_time, get_start_time, get_end_time, get_time_step,
    get_component_name, get_input_item_count, get_output_item_count,
    get_input_var_names, get_output_var_names, get_var_grid,
    get_value_ptr, get_value_ptr_scalar,
    get_var_shape, get_var_type, get_var_rank, get_var_units,
    get_var_itemsize, get_var_nbytes, get_var_location, get_time_units,
    get_value, get_value_at_indices, set_value, set_value_at_indices,
    get_grid_rank, get_grid_size, get_grid_type, get_grid_shape,
    get_grid_spacing, get_grid_origin, get_grid_x, get_grid_y, get_grid_z,
    get_grid_node_count, get_grid_edge_count, get_grid_face_count,
    get_grid_edge_nodes, get_grid_face_edges, get_grid_face_nodes,
    get_grid_nodes_per_face,
    prepare_time_step, do_time_step, finalize_time_step,
    get_subcomponent_count, prepare_solve, solve, finalize_solve,
    check_result, get_self, os_getcwd, set_previous_directory, os_chdir,
    dll_invoke, bind, ret, raise, lift, create_string_buffer, np_zeros,
    contents, BMI_SUCCESS, BMI_FAILURE.

Ltac sym_reduce :=
  cbn [fst snd self cwd kernel trace path dll MAXSTRLEN working_directory
       previous_directory negb] in *.

Ltac sym_step :=
  match goal with
  | |- context [Z.ltb ?a 0] =>
      let E := fresh "Eneg" in destruct (Z.ltb a 0) eqn:E
  | |- context [dll_call ?d ?c ?p ?k] =>
      let r := fresh "r" in
      let k' := fresh "k" in
      let E := fresh "Ecall" in
      destruct (dll_call d c p k) as [r k'] eqn:E
  | |- context [match ?x with Some _ => _ | None => _ end] =>
      let E := fresh "Edir" in destruct x eqn:E
  | |- context [startswith ?a ?b] =>
      let E := fresh "Etype" in destruct (startswith a b) eqn:E
  | |- context [Z.eqb 1 0] => change (Z.eqb 1 0) with false
  | |- context [Z.eqb ?a 0] =>
      let E := fresh "Estatus" in destruct (Z.eqb a 0) eqn:E
  end; sym_reduce.

Ltac sym_exec := sym_unfold; sym_reduce; repeat sym_step.

Lemma fill_length {A : Type} (array written : list A) :
  List.length (fill array written) = List.length array.
Proof.
  unfold fill. rewrite length_app, length_firstn, length_skipn. lia.
Qed.

Lemma fill_exact {A : Type} (array written : list A) :
  List.length written = List.length array -> fill array written = written.
Proof.
  intros H. unfold fill. rewrite <- H, firstn_all, skipn_all2 by lia.
  apply app_nil_r.
Qed.

Lemma append_assoc (a b c : string) : (a ++ b) ++ c = a ++ b ++ c.
Proof. induction a as [|x a IH]; cbn [append]; [reflexivity|]. now rewrite IH. Qed.

Lemma contains_refl (s : string) : contains s s = true.
Proof.
  apply contains_spec. exists "", "". cbn [append].
  induction s as [|x s IH]; cbn [append]; congruence.
Qed.

Lemma contains_append_l (sub a x : string) :
  contains sub x = true -> contains sub (a ++ x) = true.
Proof.
  rewrite !contains_spec. intros (before & after & ->).
  exists (a ++ before), after. symmetry. apply append_assoc.
Qed.

Lemma contains_append_r (sub x b : string) :
  contains sub x = true -> contains sub (x ++ b) = true.
Proof.
  rewrite !contains_spec. intros (before & after & ->).
  exists before, (after ++ b). now rewrite !append_assoc.
Qed.

(** A failure message shows the function name and the detail it was
    built from. *)
Lemma failure_message_contains (function_name detail : string) :
  contains function_name (failure_message function_name detail) = true /\
  contains detail (failure_message function_name detail) = true.
Proof.
  unfold failure_message. split.
  - apply contains_append_l, contains_append_r, contains_refl.
  - do 3 apply contains_append_l. apply contains_append_r, contains_refl.
Qed.

Lemma until_nul_length (s : string) : (String.length (until_nul s) <= String.length s)%nat.
Proof.
  induction s as [|x s IH]; cbn [until_nul String.length]; [lia|].
  destruct (Ascii.eqb x Ascii.zero); cbn [String.length]; lia.
Qed.

Lemma until_nul_clean (s : string) : has_char Ascii.zero (until_nul s) = false.
Proof.
  induction s as [|x s IH]; cbn [until_nul has_char]; [reflexivity|].
  destruct (Ascii.eqb x Ascii.zero) eqn:E; cbn [has_char]; [reflexivity|].
  rewrite eqb_sym, E. exact IH.
Qed.

Lemma substring_length (n : nat) (s : string) :
  (String.length (substring 0 n s) <= n)%nat.
Proof.
  revert s. induction n as [|n IH]; intros s.
  - destruct s; cbn; lia.
  - destruct s as [|x s]; cbn [substring String.length]; [lia|].
    specialize (IH s). lia.
Qed.

Lemma buffer_value_bounded (size : nat) (written : string) :
  (String.length (buffer_value size written) <= size)%nat /\
  has_char Ascii.zero (buffer_value size written) = false.
Proof.
  unfold buffer_value. split; [|apply until_nul_clean].
  pose proof (until_nul_length (substring 0 size written)).
  pose proof (substring_length size written). lia.
Qed.

Lemma fill_nil_r {A : Type} (array : list A) : fill array [] = array.
Proof. unfold fill. rewrite firstn_nil. reflexivity. Qed.

Lemma fill_cons {A : Type} (a x : A) (array written : list A) :
  fill (a :: array) (x :: written) = x :: fill array written.
Proof. reflexivity. Qed.

(** Entry by entry: the kernel's value where it wrote one, the
    array's own value elsewhere. *)
Lemma fill_nth {A : Type} (array written : list A) (i : nat) :
  nth_error (fill array written) i =
  match nth_error array i with
  | None => None
  | Some old => match nth_error written i with
                | Some new => Some new
                | None => Some old
                end
  end.
Proof.
  revert written i. induction array as [|a array IH]; intros written i.
  - unfold fill. rewrite skipn_nil. cbn. now destruct i.
  - destruct written as [|x written].
    + rewrite fill_nil_r. destruct (nth_error (a :: array) i); [|reflexivity].
      now destruct i.
    + rewrite fill_cons. destruct i as [|i]; cbn [nth_error]; [reflexivity|].
      apply IH.
Qed.

Lemma c_int_range (v : Z) : - 2 ^ 31 <= c_int v < 2 ^ 31.
Proof.
  unfold c_int. pose proof (Z.mod_pos_bound (v + 2 ^ 31) (2 ^ 32)). lia.
Qed.

Lemma c_int_small (v : Z) : - 2 ^ 31 <= v < 2 ^ 31 -> c_int v = v.
Proof. intros H. unfold c_int. rewrite Z.mod_small; lia. Qed.

Lemma c_int_period (v n : Z) : c_int (v + n * 2 ^ 32) = c_int v.
Proof.
  unfold c_int. replace (v + n * 2 ^ 32 + 2 ^ 31) with (v + 2 ^ 31 + n * 2 ^ 32) by lia.
  now rewrite Z.mod_add by lia.
Qed.






Lemma trim_zeros_shorter (l : list Z) :
  (List.length (trim_zeros l) <= List.length l)%nat.
Proof.
  destruct (trim_zeros_pieces l) as (H & _). rewrite H at 2.
  rewrite !length_app. lia.
Qed.

(** X12.  Trimming twice is trimming once; trimming never lengthens; an
    array of zeros only, the empty one included, trims to the empty
    shape. *)
Theorem trim_zeros_idempotent (shape : list Z) :
  trim_zeros (trim_zeros shape) = trim_zeros shape /\
  (List.length (trim_zeros shape) <= List.length shape)%nat /\
  (all_zero shape <-> trim_zeros shape = []).
Proof.
  destruct (trim_zeros_pieces shape) as (Hsplit & Hhd & Hlast).
  split; [|split; [apply trim_zeros_shorter|split]].
  - unfold trim_zeros at 1. unfold slice.
    rewrite (leading_zeros_none _ Hhd).
    rewrite (leading_zeros_none (rev (trim_zeros shape)))
      by (rewrite hd_rev; exact Hlast).
    cbn [skipn]. rewrite !Nat.sub_0_r. apply firstn_all.
  - intros Hz. destruct (trim_zeros shape) as [|x l] eqn:E; [reflexivity|].
    exfalso. apply Hhd. cbn [hd]. unfold all_zero in Hz.
    rewrite Forall_forall in Hz. apply Hz. rewrite Hsplit.
    apply in_or_app. right. left. reflexivity.
  - intros E. rewrite E in Hsplit. cbn [app] in Hsplit. rewrite Hsplit.
    unfold all_zero. apply Forall_app. split; apply all_zero_repeat.
Qed.

Lemma lower_ascii_nul (c : ascii) :
  Ascii.eqb (lower_ascii c) Ascii.zero = Ascii.eqb c Ascii.zero.
Proof. destruct c as [[] [] [] [] [] [] [] []]; reflexivity. Qed.

Lemma lower_until_nul (s : string) : lower (until_nul s) = until_nul (lower s).
Proof.
  induction s as [|c s IH]; cbn [until_nul lower]; [reflexivity|].
  rewrite lower_ascii_nul. destruct (Ascii.eqb c Ascii.zero); [reflexivity|].
  cbn [lower]. now rewrite IH.
Qed.

Lemma lower_substring (n : nat) (s : string) :
  lower (substring 0 n s) = substring 0 n (lower s).
Proof.
  revert s. induction n as [|n IH]; intros [|c s]; cbn [substring lower];
    try reflexivity. now rewrite IH.
Qed.

Lemma lower_buffer_value (n : nat) (s : string) :
  lower (buffer_value n s) = buffer_value n (lower s).
Proof. unfold buffer_value. now rewrite lower_until_nul, lower_substring. Qed.

Section WrapperExtras.

Context {K : Type}.
Variable chdir_target : string -> string -> option string.

Implicit Types (m : method) (s : State K) (c : KCall).

(** X1.  Whatever the kernel writes, the array [get_var_shape] returns
    has exactly as many entries as the rank the kernel reported, which
    is then not negative. *)
Theorem get_var_shape_length (name : string) s (a : list Z) :
  fst (get_var_shape name s) = Return a ->
  0 <= out_int (fst (dll_call (dll (self s)) (k_get_var_rank name) (cwd s) (kernel s))) /\
  List.length a =
  Z.to_nat (out_int (fst (dll_call (dll (self s)) (k_get_var_rank name) (cwd s) (kernel s)))).
Proof.
  destruct s as [w d k t]. sym_exec; intros H; try discriminate H.
  injection H as <-. apply Z.ltb_ge in Eneg. split; [exact Eneg|].
  rewrite fill_length. apply repeat_length.
Qed.

(** X2.  Sizes the libraries refuse.  A negative reported rank makes
    [get_var_shape] raise [ValueError] after the rank query and before
    any shape query; a negative [MAXSTRLEN] makes [get_var_type] and
    [get_grid_type] raise the [ValueError] of [create_string_buffer],
    whose message ends with that number, before any kernel call. *)
Theorem negative_sizes_raise_before_the_call :
  (forall (name : string) s (r : KReply) (k' : K),
      dll_call (dll (self s)) (k_get_var_rank name) (cwd s) (kernel s) = (r, k') ->
      status r = BMI_SUCCESS -> out_int r < 0 ->
      fst (get_var_shape name s) =
        Raise (ValueError "negative dimensions are not allowed") /\
      trace (snd (get_var_shape name s)) =
        (trace s ++ [EvKernel (k_get_var_rank name) (cwd s) BMI_SUCCESS])%list) /\
  (forall (name : string) s, MAXSTRLEN (self s) < 0 ->
      get_var_type name s =
        (Raise (ValueError ("Array length must be >= 0, not "
                            ++ str_int (MAXSTRLEN (self s)))), s)) /\
  (forall (grid : Z) s, MAXSTRLEN (self s) < 0 ->
      get_grid_type grid s =
        (Raise (ValueError ("Array length must be >= 0, not "
                            ++ str_int (MAXSTRLEN (self s)))), s)).
Proof.
  split; [|split].
  - intros name [w d k t] r k' Hcall Hok Hneg. sym_reduce.
    sym_unfold; sym_reduce. rewrite Hcall; sym_reduce.
    unfold BMI_SUCCESS in Hok. rewrite Hok. change (0 =? 0) with true.
    sym_reduce. apply Z.ltb_lt in Hneg. rewrite Hneg. split; reflexivity.
  - intros name [w d k t] H. sym_reduce. apply Z.ltb_lt in H.
    sym_unfold; sym_reduce. rewrite H. reflexivity.
  - intros grid [w d k t] H. sym_reduce. apply Z.ltb_lt in H.
    sym_unfold; sym_reduce. rewrite H. reflexivity.
Qed.

(** X3.  When a query about a variable fails in the kernel, whichever
    call of the method it was, the message of the exception ends with
    the detail "for variable <name>": it contains the variable's name. *)
Theorem variable_failure_names_variable m (name : string) s (msg : string) :
  variable_of m = Some name ->
  fst (invoke chdir_target m s) = Raise (Exception msg) ->
  (exists function_name,
      msg = failure_message function_name ("for variable " ++ name)) /\
  contains name msg = true.
Proof.
  intros Hm Hraise.
  assert (H : exists function_name,
             msg = failure_message function_name ("for variable " ++ name)).
  { destruct s as [w d k t]; destruct m; try discriminate Hm;
      injection Hm as ->; revert Hraise; unfold failure_message;
      sym_exec; intros Hraise; try discriminate Hraise;
      match type of Hraise with
      | Raise (Exception (_ ++ ?fn ++ _)) = _ => exists fn
      end; injection Hraise as <-; reflexivity. }
  split; [exact H|]. destruct H as [fn ->].
  unfold failure_message. do 3 apply contains_append_l.
  apply contains_append_r, contains_append_l, contains_refl.
Qed.

(** X4.  [get_grid_rank] and [get_grid_type] hand the kernel the grid id
    as a C int, and when the kernel fails they report the id the caller
    passed, in decimal, in the message. *)
Theorem grid_rank_and_type_report_the_caller_id (grid : Z) s :
  (exists z,
      trace (snd (get_grid_rank grid s)) =
      (trace s ++ [EvKernel (k_get_grid_rank (c_int grid)) (cwd s) z])%list) /\
  (forall msg, fst (get_grid_rank grid s) = Raise (Exception msg) ->
      msg = failure_message "get_grid_rank" ("for id " ++ str_int grid) /\
      contains (str_int grid) msg = true) /\
  (forall msg, fst (get_grid_type grid s) = Raise (Exception msg) ->
      msg = failure_message "get_grid_type" ("for id " ++ str_int grid) /\
      contains (str_int grid) msg = true).
Proof.
  assert (Hin : forall fn,
             contains (str_int grid)
               (failure_message fn ("for id " ++ str_int grid)) = true).
  { intros fn. unfold failure_message. do 3 apply contains_append_l.
    apply contains_append_r, contains_append_l, contains_refl. }
  destruct s as [w d k t]. split; [|split].
  - sym_exec; eexists; reflexivity.
  - intros msg. unfold failure_message at 1.
    sym_exec; intros H; try discriminate H; injection H as <-.
    split; [reflexivity|apply (Hin "get_grid_rank")].
  - intros msg. unfold failure_message at 1.
    sym_exec; intros H; try discriminate H; injection H as <-.
    split; [reflexivity|apply (Hin "get_grid_type")].
Qed.

(** X5.  A component id reaches the kernel as a signed 32-bit integer:
    unchanged when it fits, and otherwise folded, so that ids differing
    by a multiple of 2^32 cannot be told apart by [prepare_solve],
    [solve] and [finalize_solve]. *)
Theorem component_id_is_a_c_int (component_id n : Z) s :
  - 2 ^ 31 <= c_int component_id < 2 ^ 31 /\
  (- 2 ^ 31 <= component_id < 2 ^ 31 -> c_int component_id = component_id) /\
  prepare_solve chdir_target (component_id + n * 2 ^ 32) s =
    prepare_solve chdir_target component_id s /\
  solve chdir_target (component_id + n * 2 ^ 32) s =
    solve chdir_target component_id s /\
  finalize_solve chdir_target (component_id + n * 2 ^ 32) s =
    finalize_solve chdir_target component_id s.
Proof.
  split; [apply c_int_range|split; [apply c_int_small|]].
  unfold prepare_solve, solve, finalize_solve.
  rewrite c_int_period. repeat split.
Qed.

(** X6.  The grid methods that fill a caller's array return an array of
    the caller's length: each entry is the kernel's where the kernel
    wrote one, and the caller's own beyond that. *)
Theorem grid_arrays_keep_their_length (grid : Z) s :
  (forall (shape a : list Z),
      fst (get_grid_shape grid shape s) = Return a ->
      List.length a = List.length shape /\
      forall i old, nth_error shape i = Some old ->
        nth_error a i =
        Some (nth i (out_ints (fst (dll_call (dll (self s))
                       (k_get_grid_shape (c_int grid)) (cwd s) (kernel s)))) old)) /\
  (forall (x a : list double),
      (fst (get_grid_x grid x s) = Return a \/
       fst (get_grid_y grid x s) = Return a \/
       fst (get_grid_z grid x s) = Return a) ->
      List.length a = List.length x).
Proof.
  destruct s as [w d k t]. split.
  - intros shape a. sym_exec; intros H; try discriminate H. injection H as <-.
    split; [apply fill_length|]. intros i old Hi. rewrite fill_nth, Hi.
    destruct (nth_error (out_ints r) i) as [new|] eqn:E.
    + now rewrite (nth_error_nth _ _ _ E).
    + apply nth_error_None in E. now rewrite nth_overflow.
  - intros x a. sym_exec; intros [H|[H|H]]; try discriminate H;
      injection H as <-; apply fill_length.
Qed.

(** X7.  A type string returned by [get_var_type] or [get_grid_type] has
    at most [MAXSTRLEN] characters and no NUL in it. *)
Theorem type_strings_fit_the_buffer s (v : string) :
  (exists name, fst (get_var_type name s) = Return v) \/
  (exists grid, fst (get_grid_type grid s) = Return v) ->
  0 <= MAXSTRLEN (self s) /\
  (String.length v <= Z.to_nat (MAXSTRLEN (self s)))%nat /\
  has_char Ascii.zero v = false.
Proof.
  destruct s as [w d k t]. sym_reduce.
  intros [[name H]|[grid H]]; revert H; sym_exec; intros H;
    try discriminate H; injection H as <-; apply Z.ltb_ge in Eneg;
    (split; [exact Eneg|apply buffer_value_bounded]).
Qed.

(** X8.  A directory-scoped method whose two directory switches and
    kernel call succeed returns normally, with the process back in the
    caller's directory, the caller's directory recorded in
    [previous_directory], the kernel advanced by that one call, and the
    trace extended by switch, call, switch back. *)
Theorem scoped_call_success m c s (d : string) :
  scoping_of m = Scoped c ->
  chdir_target (cwd s) (working_directory (self s)) = Some d ->
  status (fst (dll_call (dll (self s)) c d (kernel s))) = BMI_SUCCESS ->
  chdir_target d (cwd s) = Some (cwd s) ->
  (exists v, fst (invoke chdir_target m s) = Return v) /\
  cwd (snd (invoke chdir_target m s)) = cwd s /\
  previous_directory (self (snd (invoke chdir_target m s))) = cwd s /\
  kernel (snd (invoke chdir_target m s)) =
    snd (dll_call (dll (self s)) c d (kernel s)) /\
  trace (snd (invoke chdir_target m s)) =
    (trace s ++ [EvChdir (working_directory (self s));
                 EvKernel c d BMI_SUCCESS; EvChdir (cwd s)])%list.
Proof.
  intros Hm Hin Hok Hback. destruct s as [w d0 k t]. sym_reduce.
  unfold BMI_SUCCESS in *.
  destruct m; try discriminate Hm; injection Hm as <-;
    sym_unfold; sym_reduce; rewrite Hin; sym_reduce;
    destruct (dll_call (dll w) _ d k) as [r k'] eqn:E; sym_reduce;
    cbn [fst] in Hok; rewrite Hok; change (0 =? 0) with true; sym_reduce;
    rewrite Hback; sym_reduce; rewrite <- ?app_assoc;
    (split; [eexists; reflexivity|repeat split]).
Qed.

(** What a method that returns normally does to the current directory,
    when the way back from the working directory leads to where the
    caller was. *)
Lemma return_keeps_directory m s (v : pyvalue) :
  (forall d, chdir_target (cwd s) (working_directory (self s)) = Some d ->
             chdir_target d (cwd s) = Some (cwd s)) ->
  fst (invoke chdir_target m s) = Return v ->
  cwd (snd (invoke chdir_target m s)) = cwd s.
Proof.
  destruct s as [w d k t]. sym_reduce. intros Hback.
  destruct m; sym_exec; intros H; try discriminate H; try reflexivity;
    specialize (Hback _ eq_refl); congruence.
Qed.

(** X9.  Calls compose: when a caller makes any sequence of calls and
    all of them return normally, the process ends in the directory it
    started in, with one result per call. *)
Theorem sequence_keeps_directory (ms : list method) s (vs : list pyvalue) :
  (forall d, chdir_target (cwd s) (working_directory (self s)) = Some d ->
             chdir_target d (cwd s) = Some (cwd s)) ->
  fst (invoke_all chdir_target ms s) = Return vs ->
  cwd (snd (invoke_all chdir_target ms s)) = cwd s /\
  List.length vs = List.length ms.
Proof.
  revert s vs. induction ms as [|m ms IH]; intros s vs Hback.
  - cbn. intros H. injection H as <-. split; reflexivity.
  - cbn [invoke_all]. unfold bind, ret.
    pose proof (return_keeps_directory m s) as Hcwd.
    pose proof (working_directory_kept chdir_target m s) as Hwd.
    destruct (invoke chdir_target m s) as [[v|e] s1]; cbn [fst snd] in *;
      [|discriminate].
    specialize (Hcwd v Hback eq_refl).
    specialize (IH s1). rewrite Hcwd, Hwd in IH.
    destruct (invoke_all chdir_target ms s1) as [[vs1|e] s2]; cbn [fst snd] in *;
      [|discriminate].
    intros H. injection H as <-. destruct (IH vs1 Hback eq_refl) as [H1 H2].
    split; [exact H1|]. cbn [List.length]. now rewrite H2.
Qed.

(** X10.  No method changes the library path, the library handle, the
    cached [MAXSTRLEN] or the working directory.  A method without
    directory scoping changes nothing of the adapter and leaves the
    current directory alone; a scoped one records the caller's
    directory in [previous_directory], whatever happens next. *)
Theorem methods_keep_the_configuration m s :
  path (self (snd (invoke chdir_target m s))) = path (self s) /\
  dll (self (snd (invoke chdir_target m s))) = dll (self s) /\
  MAXSTRLEN (self (snd (invoke chdir_target m s))) = MAXSTRLEN (self s) /\
  working_directory (self (snd (invoke chdir_target m s))) =
    working_directory (self s) /\
  match scoping_of m with
  | Unscoped =>
      self (snd (invoke chdir_target m s)) = self s /\
      cwd (snd (invoke chdir_target m s)) = cwd s
  | _ => previous_directory (self (snd (invoke chdir_target m s))) = cwd s
  end.
Proof.
  destruct s as [[p dl n wd pd] d k t]; destruct m; cbn [scoping_of];
    sym_exec; repeat split.
Qed.




(** A row-major array whose strides all lie below [sd] passes the
    column-major test from [sd] only when every dimension is 1. *)
Lemma f_contiguous_from_above (item : Z) (shape : list Z) :
  0 < item ->
  Forall (fun n => 0 < n) shape ->
  forall sd, item * product shape < sd ->
  f_contiguous_from sd shape (c_strides item shape) = true ->
  Forall (fun n => n = 1) shape.
Proof.
  intros Hitem Hpos. induction Hpos as [|n shape Hn Hpos IH]; intros sd Hsd Hf.
  - constructor.
  - cbn [c_strides f_contiguous_from product fold_right] in Hf, Hsd.
    fold (product shape) in Hf, Hsd.
    pose proof (product_positive shape Hpos) as Hprod.
    destruct (Z.eqb_spec n 0) as [->|_]; [lia|].
    destruct (Z.eqb_spec n 1) as [->|Hn1].
    + constructor; [reflexivity|]. apply (IH sd); [lia|exact Hf].
    + apply andb_true_iff in Hf. destruct Hf as [Hst _].
      apply Z.eqb_eq in Hst. nia.
Qed.

Lemma product_one (shape : list Z) :
  Forall (fun n => 0 < n) shape -> product shape = 1 ->
  Forall (fun n => n = 1) shape.
Proof.
  induction 1 as [|n shape Hn Hpos IH]; cbn [product fold_right]; [constructor|].
  fold (product shape). intros Hp.
  pose proof (product_positive shape Hpos) as Hprod.
  assert (n = 1 /\ product shape = 1) as [-> Hrest] by nia.
  constructor; [reflexivity|exact (IH Hrest)].
Qed.

Lemma non_unit_ones (shape : list Z) :
  Forall (fun n => n = 1) shape -> non_unit shape = [].
Proof.
  induction 1 as [|n shape -> _ IH]; [reflexivity|].
  cbn. exact IH.
Qed.

(** A row-major array with positive dimensions passes numpy's
    column-major test only when at most one dimension is not 1. *)
Lemma row_major_f_contiguous (item : Z) (shape : list Z) :
  0 < item ->
  Forall (fun n => 0 < n) shape ->
  f_contiguous_from item shape (c_strides item shape) = true ->
  (List.length (non_unit shape) <= 1)%nat.
Proof.
  intros Hitem Hpos. induction Hpos as [|n shape Hn Hpos IH]; intros Hf.
  - cbn. lia.
  - cbn [c_strides f_contiguous_from] in Hf.
    pose proof (product_positive shape Hpos) as Hprod.
    unfold non_unit. cbn [filter]. fold (non_unit shape).
    destruct (Z.eqb_spec n 0) as [->|_]; [lia|].
    destruct (Z.eqb_spec n 1) as [->|Hn1]; cbn [negb].
    + exact (IH Hf).
    + apply andb_true_iff in Hf. destruct Hf as [Hst Hrest].
      apply Z.eqb_eq in Hst.
      assert (Hone : product shape = 1) by nia.
      rewrite (non_unit_ones shape (product_one shape Hpos Hone)). cbn. lia.
Qed.

(** X16.  Whatever the kernel answers, a view returned by
    [get_value_ptr] has positive dimensions only, a size in bytes that
    fits a C int, an address that is not NULL, and the element type of
    the pointer query made last ([float64] after [get_value_ptr_double],
    [int32] after [get_value_ptr_int]); its strides are row-major, so it
    has numpy's [F_CONTIGUOUS] flag only if at most one of its
    dimensions is not 1, although the pointer class was built with
    [flags='F']. *)
Theorem get_value_ptr_view_wellformed (name : string) s (a : ndarray) :
  fst (get_value_ptr name s) = Return (Some a) ->
  viewable (array_dtype a) (array_shape a) (array_data a) /\
  (f_contiguous a = true -> (List.length (non_unit (array_shape a)) <= 1)%nat) /\
  exists before,
    trace (snd (get_value_ptr name s)) =
    (before ++
     [EvKernel (match array_dtype a with
                | float64 => k_get_value_ptr_double name
                | int32 => k_get_value_ptr_int name
                end) (cwd s) BMI_SUCCESS])%list.
Proof.
  intros H.
  assert (Hview : viewable (array_dtype a) (array_shape a) (array_data a) /\
                  exists before,
                    trace (snd (get_value_ptr name s)) =
                    (before ++
                     [EvKernel (match array_dtype a with
                                | float64 => k_get_value_ptr_double name
                                | int32 => k_get_value_ptr_int name
                                end) (cwd s) BMI_SUCCESS])%list).
  { revert H. destruct s as [w d k t]. sym_unfold; sym_reduce.
    repeat first
      [ match goal with
        | |- context [contents_error ?p ?x] =>
            let E := fresh "Eview" in
            destruct (contents_error p x) eqn:E;
            [|apply contents_error_none in E; cbn [nd_shape nd_dtype] in E]
        end; sym_reduce
      | sym_step ];
      intros H; try discriminate H; injection H as <-;
      cbn [array_dtype array_shape array_data];
      repeat match goal with
             | E : (_ =? 0) = true |- _ => apply Z.eqb_eq in E; rewrite ?E
             end;
      (split; [assumption|eexists; reflexivity]). }
  destruct Hview as [Hv Ht]. split; [exact Hv|]. split; [|exact Ht].
  destruct Hv as (Hpos & _ & _). unfold f_contiguous, array_strides.
  apply row_major_f_contiguous; [destruct (array_dtype a); cbn; lia|exact Hpos].
Qed.

(** X17.  When the switch to the working directory fails, a scoped
    method raises the [OSError] of that switch and does nothing else:
    no kernel call, the current directory and the kernel as they were,
    only the attempted switch on the trace. *)
Theorem failed_switch_calls_nothing m s :
  scoping_of m <> Unscoped ->
  chdir_target (cwd s) (working_directory (self s)) = None ->
  fst (invoke chdir_target m s) = Raise (OSError (working_directory (self s))) /\
  cwd (snd (invoke chdir_target m s)) = cwd s /\
  kernel (snd (invoke chdir_target m s)) = kernel s /\
  trace (snd (invoke chdir_target m s)) =
    (trace s ++ [EvChdir (working_directory (self s))])%list.
Proof.
  intros Hm Hdir. destruct s as [w d k t]. sym_reduce.
  destruct m; try (exfalso; apply Hm; reflexivity);
    sym_unfold; sym_reduce; rewrite Hdir; repeat split.
Qed.

End WrapperExtras.

(** X18.  The dispatch on the type string ignores letter case: two type
    strings equal up to case give the same answer to both prefix tests
    [get_value_ptr] makes, whatever the buffer size. *)
Theorem type_dispatch_ignores_case (size : nat) (type type' : string) :
  lower type = lower type' ->
  startswith (lower (buffer_value size type)) "double" =
    startswith (lower (buffer_value size type')) "double" /\
  startswith (lower (buffer_value size type)) "int" =
    startswith (lower (buffer_value size type')) "int".
Proof. intros H. rewrite !lower_buffer_value, H. split; reflexivity. Qed.

(** X11.  [set_int] followed by [get_constant_int] on the same symbol
    reads back the value as a C int, hence the value itself when it fits
    in 32 bits; other symbols, the [MAXSTRLEN] cached at construction,
    the current directory, the kernel and the trace are untouched. *)
Theorem set_int_then_get {K : Type} (name : string) (value old : Z) (s : State K) :
  dll_symbol (dll (self s)) name = Some old ->
  fst (set_int name value s) = Return tt /\
  get_constant_int (dll (self (snd (set_int name value s)))) name =
    Return (c_int value) /\
  (- 2 ^ 31 <= value < 2 ^ 31 ->
   get_constant_int (dll (self (snd (set_int name value s)))) name = Return value) /\
  (forall other, other <> name ->
     get_constant_int (dll (self (snd (set_int name value s)))) other =
     get_constant_int (dll (self s)) other) /\
  MAXSTRLEN (self (snd (set_int name value s))) = MAXSTRLEN (self s) /\
  cwd (snd (set_int name value s)) = cwd s /\
  kernel (snd (set_int name value s)) = kernel s /\
  trace (snd (set_int name value s)) = trace s.
Proof.
  intros H. unfold set_int, get_constant_int. rewrite H.
  cbn [fst snd self dll dll_symbol MAXSTRLEN cwd kernel trace].
  rewrite String.eqb_refl. repeat split.
  - intros Hr. now rewrite c_int_small.
  - intros other Ho. apply String.eqb_neq in Ho. now rewrite Ho.
Qed.

(** ** The further properties on the concrete world *)

Lemma get_var_shape_length_witness :
  List.length [0; 10] = 2%nat.
Proof.
  exact (proj2 (get_var_shape_length "HEAD"
                  (example_state (variable_kernel 2 "DOUBLE PRECISION" [0; 10; 5]))
                  [0; 10] eq_refl)).
Defined.

Lemma variable_failure_names_variable_witness :
  contains "HEAD" "MODFLOW 6 BMI, exception in: get_var_rank (for variable HEAD)" = true.
Proof.
  exact (proj2 (variable_failure_names_variable example_chdir
                  (Call_get_var_rank "HEAD") "HEAD" (example_state failing_kernel)
                  "MODFLOW 6 BMI, exception in: get_var_rank (for variable HEAD)"
                  eq_refl eq_refl)).
Defined.

Lemma type_strings_fit_the_buffer_witness :
  (String.length "INTEGER" <= 300)%nat /\ has_char Ascii.zero "INTEGER" = false.
Proof.
  exact (proj2 (type_strings_fit_the_buffer
                  (example_state (variable_kernel 1 "INTEGER" [3])) "INTEGER"
                  (or_introl (ex_intro _ "NITER" eq_refl)))).
Defined.

Lemma scoped_call_success_witness :
  cwd (snd (invoke example_chdir Call_update (example_state succeeding_kernel)))
    = "/home/user".
Proof.
  exact (proj1 (proj2 (scoped_call_success example_chdir Call_update k_update
                         (example_state succeeding_kernel) "/model"
                         eq_refl eq_refl eq_refl eq_refl))).
Defined.

Lemma sequence_keeps_directory_witness :
  cwd (snd (invoke_all example_chdir
              [Call_prepare_time_step PrimFloat.zero; Call_prepare_solve 1;
               Call_solve 1; Call_finalize_solve 1; Call_finalize_time_step]
              (example_state (solving_kernel 1)))) = "/home/user".
Proof.
  refine (proj1 (sequence_keeps_directory example_chdir
                   [Call_prepare_time_step PrimFloat.zero; Call_prepare_solve 1;
                    Call_solve 1; Call_finalize_solve 1; Call_finalize_time_step]
                   (example_state (solving_kernel 1))
                   [PyNone; PyNone; PyBool true; PyNone; PyNone] _ eq_refl)).
  intros d H. injection H as <-. reflexivity.
Defined.

Lemma set_int_then_get_witness :
  get_constant_int
    (dll (self (snd (set_int "MAXSTRLEN" 80 (example_state succeeding_kernel)))))
    "MAXSTRLEN" = Return 80 /\
  MAXSTRLEN (self (snd (set_int "MAXSTRLEN" 80 (example_state succeeding_kernel))))
    = 300.
Proof.
  destruct (set_int_then_get "MAXSTRLEN" 80 300 (example_state succeeding_kernel)
              eq_refl) as (_ & _ & Hget & _ & Hmax & _).
  split; [|exact Hmax]. apply Hget. split; [discriminate|reflexivity].
Defined.




Lemma get_value_ptr_view_wellformed_witness :
  fst (get_value_ptr "HEAD"
         (example_state (variable_kernel 3 "DOUBLE PRECISION" [0; 10; 5]))) =
    Return (Some (mk_ndarray float64 [10; 5] 4096)) /\
  viewable float64 [10; 5] 4096 /\
  f_contiguous (mk_ndarray float64 [10; 5] 4096) = false.
Proof.
  split; [reflexivity|].
  destruct (get_value_ptr_view_wellformed "HEAD"
              (example_state (variable_kernel 3 "DOUBLE PRECISION" [0; 10; 5]))
              (mk_ndarray float64 [10; 5] 4096) eq_refl)
    as (Hview & Hlayout & _).
  split; [exact Hview|].
  destruct (f_contiguous (mk_ndarray float64 [10; 5] 4096)) eqn:E; [|reflexivity].
  specialize (Hlayout eq_refl). cbn in Hlayout. lia.
Defined.

Lemma failed_switch_calls_nothing_witness :
  fst (invoke example_chdir Call_update unreachable_state) = Raise (OSError "model") /\
  cwd (snd (invoke example_chdir Call_update unreachable_state)) = "/home/user".
Proof.
  destruct (failed_switch_calls_nothing example_chdir Call_update unreachable_state)
    as (Hraise & Hcwd & _).
  - discriminate.
  - reflexivity.
  - split; [exact Hraise|exact Hcwd].
Defined.

Lemma type_dispatch_ignores_case_witness :
  startswith (lower (buffer_value 300 "DOUBLE PRECISION")) "double" =
  startswith (lower (buffer_value 300 "Double Precision")) "double".
Proof.
  exact (proj1 (type_dispatch_ignores_case 300 "DOUBLE PRECISION" "Double Precision"
                  eq_refl)).
Defined.
